(** * The uvicorn lifespan coordinator ([uvicorn/lifespan/on.py], class [LifespanOn])

    A shallow embedding of [LifespanOn] and of the part of the asyncio event
    loop it relies on, followed by the properties of the lifespan handshake.

    - Synchronous stretches of code (everything between two suspension points)
      are written in a state-and-exception monad [M] over the [world].
    - The application is an external callable; it is represented by the tree of
      its uses of the two capabilities [receive] and [send] it is handed.
    - The event loop is the FIFO queue of runnable runner tasks, the queue's
      waiting getters, and the foreground caller of [startup]/[shutdown]. *)

From Stdlib Require Import String List Bool Arith Lia.
From ExtLib Require Import Structures.Monad.
Import ListNotations.
Import MonadNotation.
Local Open Scope string_scope.
Local Open Scope monad_scope.

Set Implicit Arguments.

(** ** Data *)

(** Python exceptions that occur in this module.  [AssertionError None] is a
    bare [assert c]; [AssertionError (Some s)] is [assert c, s]. *)
Inductive exn : Type :=
| AssertionError (msg : option string)
| CancelledError
| Exception (descr : string).

(** What an [await] (or a call) hands back to the code that made it. *)
Inductive await_result (A : Type) : Type :=
| Value (a : A)
| Thrown (e : exn).
Arguments Value {A} a.
Arguments Thrown {A} e.

(** [LifespanReceiveMessage = Union[LifespanStartupEvent, LifespanShutdownEvent]] *)
Inductive LifespanReceiveMessage : Type :=
| LifespanStartupEvent    (* {"type": "lifespan.startup"} *)
| LifespanShutdownEvent.  (* {"type": "lifespan.shutdown"} *)

(** A message handed to [send]: the dict's ["type"] entry and its optional
    ["message"] entry ([message.get("message")] is [None] when absent). *)
Record LifespanSendMessage : Type := mkSendMessage {
  msg_type : string;
  msg_message : option string
}.

Definition STATE_TRANSITION_ERROR : string :=
  "Got invalid state transition on lifespan protocol.".

(** [asyncio.Event], as far as its flag goes; its waiters are the foreground
    caller, handled by the loop below. *)
Module Event.
Definition t : Type := bool.
Definition new : t := false.
Definition is_set (e : t) : bool := e.
Definition set (_ : t) : t := true.
End Event.

(** An attribute that [__init__] does not create. *)
Inductive attribute : Type := Missing | PyNone.

(** The fields of a [LifespanOn] instance. *)
Record LifespanOn : Type := mkLifespanOn {
  startup_event : Event.t;
  shutdown_event : Event.t;
  receive_queue : list LifespanReceiveMessage;
  error_occured : bool;
  startup_failed : bool;
  shutdown_failed : bool;
  should_exit : bool;
  asgi : attribute
}.

(** What the module writes to stdout and to the ["uvicorn.error"] logger, in
    program order.  The [print] calls are named by their place in the file. *)
Inductive out_event : Type :=
| Print_startup_begin                 (* line 50 *)
| Print_startup_done                  (* line 67 *)
| Print_shutdown                      (* line 74 *)
| Print_main_app                      (* line 92 *)
| Print_send (ty : string)            (* line 114 *)
| Print_okk                           (* line 139 *)
| LogInfo (msg : string)
| LogError (msg : string) (exc_info : option exn).

(** The application entry point [app(scope, receive, send)], as the tree of
    what it does with its capabilities: it returns, raises, awaits [receive()]
    or awaits [send(m)], and goes on according to what the await gave back
    (a value, or an exception it is free to handle).

    Scope: the applications described are those that use [receive] and
    [send] from the coroutine of the call itself and await nothing else.  An
    application that awaits other things, or hands [send] to a timer or to
    another task, has no term here; nothing below speaks about it. *)
Inductive app : Type :=
| AppReturn
| AppRaise (e : exn)
| AppReceive (k : await_result LifespanReceiveMessage -> app)
| AppSend (m : LifespanSendMessage) (k : await_result unit -> app).

(** A runner task, i.e. one [main()] coroutine wrapped by [create_task]:
    either not yet started, or suspended inside [await app(...)]. *)
Inductive task : Type :=
| NotStarted
| InApp (a : app).

(** [config.lifespan] and [config.loaded_app] (already applied to the constant
    lifespan scope). *)
Record Config : Type := mkConfig {
  lifespan : string;
  loaded_app : app
}.

(** The coordinator together with its surroundings. *)
Record world : Type := mkWorld {
  self : LifespanOn;
  output : list out_event;
  ready : list task;      (* runner tasks scheduled on the loop, oldest first *)
  getters : list task;    (* runner tasks suspended in [receive_queue.get()] *)
  created : nat           (* number of [create_task] calls so far *)
}.

(** ** Field updates *)

Definition with_self (f : LifespanOn -> LifespanOn) (w : world) : world :=
  mkWorld (f (self w)) (output w) (ready w) (getters w) (created w).

Definition set_startup_event (s : LifespanOn) : LifespanOn :=
  mkLifespanOn (Event.set (startup_event s)) (shutdown_event s) (receive_queue s)
    (error_occured s) (startup_failed s) (shutdown_failed s) (should_exit s) (asgi s).

Definition set_shutdown_event (s : LifespanOn) : LifespanOn :=
  mkLifespanOn (startup_event s) (Event.set (shutdown_event s)) (receive_queue s)
    (error_occured s) (startup_failed s) (shutdown_failed s) (should_exit s) (asgi s).

Definition with_receive_queue (q : list LifespanReceiveMessage) (s : LifespanOn) : LifespanOn :=
  mkLifespanOn (startup_event s) (shutdown_event s) q
    (error_occured s) (startup_failed s) (shutdown_failed s) (should_exit s) (asgi s).

Definition with_error_occured (b : bool) (s : LifespanOn) : LifespanOn :=
  mkLifespanOn (startup_event s) (shutdown_event s) (receive_queue s)
    b (startup_failed s) (shutdown_failed s) (should_exit s) (asgi s).

Definition with_startup_failed (b : bool) (s : LifespanOn) : LifespanOn :=
  mkLifespanOn (startup_event s) (shutdown_event s) (receive_queue s)
    (error_occured s) b (shutdown_failed s) (should_exit s) (asgi s).

Definition with_shutdown_failed (b : bool) (s : LifespanOn) : LifespanOn :=
  mkLifespanOn (startup_event s) (shutdown_event s) (receive_queue s)
    (error_occured s) (startup_failed s) b (should_exit s) (asgi s).

Definition with_should_exit (b : bool) (s : LifespanOn) : LifespanOn :=
  mkLifespanOn (startup_event s) (shutdown_event s) (receive_queue s)
    (error_occured s) (startup_failed s) (shutdown_failed s) b (asgi s).

Definition with_asgi (a : attribute) (s : LifespanOn) : LifespanOn :=
  mkLifespanOn (startup_event s) (shutdown_event s) (receive_queue s)
    (error_occured s) (startup_failed s) (shutdown_failed s) (should_exit s) a.

(** ** The monad of synchronous code *)

Definition M (A : Type) : Type := world -> await_result A * world.

#[global] Instance Monad_M : Monad M := {|
  ret := fun A (a : A) w => (Value a, w);
  bind := fun A B (c : M A) (k : A -> M B) w =>
            match c w with
            | (Value a, w') => k a w'
            | (Thrown e, w') => (Thrown e, w')
            end
|}.

Definition raise {A : Type} (e : exn) : M A := fun w => (Thrown e, w).
Definition get_self : M LifespanOn := fun w => (Value (self w), w).
Definition update (f : LifespanOn -> LifespanOn) : M unit :=
  fun w => (Value tt, with_self f w).
Definition emit (o : out_event) : M unit :=
  fun w => (Value tt, mkWorld (self w) (output w ++ [o]) (ready w) (getters w) (created w)).

(** [assert c] and [assert c, msg] *)
Definition assert_ (c : bool) (msg : option string) : M unit :=
  if c then ret tt else raise (AssertionError msg).

(** [if dict.get("message"):] : present and not the empty string *)
Definition truthy (o : option string) : bool :=
  match o with
  | Some s => negb (s =? "")
  | None => false
  end.

(** ** [LifespanOn.send] (lines 113-151) *)

Definition send_types : list string :=
  [ "lifespan.startup.complete"; "lifespan.startup.failed";
    "lifespan.shutdown.complete"; "lifespan.shutdown.failed" ].

Definition log_optional_message (message : LifespanSendMessage) : M unit :=
  if truthy (msg_message message) then
    match msg_message message with
    | Some s => emit (LogError s None)
    | None => ret tt
    end
  else ret tt.

Definition send (message : LifespanSendMessage) : M unit :=
  emit (Print_send (msg_type message)) ;;
  assert_ (existsb (String.eqb (msg_type message)) send_types) None ;;
  if msg_type message =? "lifespan.startup.complete" then
    s <- get_self ;;
    assert_ (negb (Event.is_set (startup_event s))) (Some STATE_TRANSITION_ERROR) ;;
    s <- get_self ;;
    assert_ (negb (Event.is_set (shutdown_event s))) (Some STATE_TRANSITION_ERROR) ;;
    update set_startup_event
  else if msg_type message =? "lifespan.startup.failed" then
    s <- get_self ;;
    assert_ (negb (Event.is_set (startup_event s))) (Some STATE_TRANSITION_ERROR) ;;
    s <- get_self ;;
    assert_ (negb (Event.is_set (shutdown_event s))) (Some STATE_TRANSITION_ERROR) ;;
    update set_startup_event ;;
    update (with_startup_failed true) ;;
    log_optional_message message
  else if msg_type message =? "lifespan.shutdown.complete" then
    emit Print_okk ;;
    s <- get_self ;;
    assert_ (Event.is_set (startup_event s)) (Some STATE_TRANSITION_ERROR) ;;
    s <- get_self ;;
    assert_ (negb (Event.is_set (shutdown_event s))) (Some STATE_TRANSITION_ERROR) ;;
    update set_shutdown_event
  else if msg_type message =? "lifespan.shutdown.failed" then
    s <- get_self ;;
    assert_ (Event.is_set (startup_event s)) (Some STATE_TRANSITION_ERROR) ;;
    s <- get_self ;;
    assert_ (negb (Event.is_set (shutdown_event s))) (Some STATE_TRANSITION_ERROR) ;;
    update set_shutdown_event ;;
    update (with_shutdown_failed true) ;;
    log_optional_message message
  else ret tt.

(** ** [asyncio.Queue] and [LifespanOn.receive] (lines 153-155) *)

(** [await self.receive_queue.put(item)]: the queue is unbounded, so [put]
    never suspends; it appends the item and wakes the longest-waiting getter,
    which is scheduled to look at the queue again. *)
Definition Queue_put (item : LifespanReceiveMessage) : M unit :=
  fun w =>
    let s := with_receive_queue (receive_queue (self w) ++ [item]) (self w) in
    match getters w with
    | [] => (Value tt, mkWorld s (output w) (ready w) [] (created w))
    | t :: ts => (Value tt, mkWorld s (output w) (ready w ++ [t]) ts (created w))
    end.

(** [loop.create_task(self.main())] *)
Definition create_task : M unit :=
  fun w => (Value tt,
            mkWorld (self w) (output w) (ready w ++ [NotStarted]) (getters w) (S (created w))).

(** How far one scheduling of a runner task gets. *)
Inductive status : Type :=
| Suspended (a : app)               (* inside [receive_queue.get()], queue empty *)
| Exited (r : await_result unit).   (* [app(...)] returned or raised *)

(** [receive] is [return await self.receive_queue.get()]: it takes the oldest
    message; [None] when the queue is empty and the caller has to suspend. *)
Definition receive (w : world) : option (LifespanReceiveMessage * world) :=
  match receive_queue (self w) with
  | [] => None
  | m :: q => Some (m, with_self (with_receive_queue q) w)
  end.

(** Run the application until it suspends in [receive] or ends; [send] never
    suspends. *)
Fixpoint run_app (a : app) (w : world) : status * world :=
  match a with
  | AppReturn => (Exited (Value tt), w)
  | AppRaise e => (Exited (Thrown e), w)
  | AppReceive k =>
      match receive w with
      | None => (Suspended (AppReceive k), w)
      | Some (m, w') => run_app (k (Value m)) w'
      end
  | AppSend m k => let (r, w') := send m w in run_app (k r) w'
  end.

(** ** [LifespanOn.main] (lines 87-111) *)

Definition newline : string := String (Ascii.ascii_of_nat 10) EmptyString.

(** ["Exception in 'lifespan' protocol\n"] *)
Definition exception_msg : string := "Exception in 'lifespan' protocol" ++ newline.

(** The [except BaseException as exc:] clause. *)
Definition main_except (config : Config) (exc : exn) : M unit :=
  update (with_asgi PyNone) ;;
  update (with_error_occured true) ;;
  s <- get_self ;;
  if startup_failed s || shutdown_failed s then ret tt
  else if lifespan config =? "auto" then
    emit (LogInfo "ASGI 'lifespan' protocol appears unsupported.")
  else
    emit (LogError exception_msg (Some exc)).

(** The [finally:] clause. *)
Definition main_finally : M unit :=
  update set_startup_event ;;
  update set_shutdown_event.

(** Python's [try: ... finally: final] once the protected part has ended with
    [r]: [final] runs, and [r] stands unless [final] itself raises. *)
Definition finally_ {A : Type} (r : await_result A) (final : M unit) : M A :=
  fun w =>
    match final w with
    | (Value _, w') => (r, w')
    | (Thrown e, w') => (Thrown e, w')
    end.

(** [main] from the point where [await app(scope, self.receive, self.send)]
    has ended with [r] (lines 98-111). *)
Definition main_exit (config : Config) (r : await_result unit) : M unit :=
  fun w =>
    let (r', w') :=
      match r with
      | Value _ => (Value tt, w)
      | Thrown exc => main_except config exc w
      end in
    finally_ r' main_finally w'.

(** [main] from its first line (lines 88-97): up to the first suspension
    inside [await app(scope, self.receive, self.send)], or to the end of that
    call. *)
Definition main (config : Config) (w : world) : status * world :=
  let (_, w') := emit Print_main_app w in
  run_app (loaded_app config) w'.

(** One scheduling of a runner task by the loop, up to its next suspension
    or the end of the application call. *)
Definition step_task (config : Config) (t : task) (w : world) : status * world :=
  match t with
  | NotStarted => main config w
  | InApp a => run_app a w
  end.

Definition add_getter (a : app) (w : world) : world :=
  mkWorld (self w) (output w) (ready w) (getters w ++ [InApp a]) (created w).

(** ... and what becomes of the task: it joins the queue's getters, or [main]
    runs to its end and the task is done. *)
Definition settle (config : Config) (sw : status * world) : world :=
  match sw with
  | (Suspended a, w') => add_getter a w'
  | (Exited r, w') => snd (main_exit config r w')
  end.

Definition run_task (config : Config) (t : task) (w : world) : world :=
  settle config (step_task config t w).

(** ** Waiting on an [asyncio.Event] *)

Definition run_tasks (config : Config) (ts : list task) (w : world) : world :=
  fold_left (fun w t => run_task config t w) ts w.

(** The loop while the foreground caller waits for [ev]: scheduled tasks run
    oldest first.  When one of them sets [ev] the caller's wake-up is queued
    behind the tasks scheduled before it, which therefore still get their
    turn.  [None]: no runner task is left to run and [ev] is not set; with
    applications in the scope of [app], nothing then sets [ev] while the
    caller waits. *)
Fixpoint run_until (ev : LifespanOn -> Event.t) (config : Config)
    (pending : list task) (w : world) : option world :=
  match pending with
  | [] => None
  | t :: rest =>
      let w' := run_task config t w in
      if Event.is_set (ev (self w')) then Some (run_tasks config rest w')
      else run_until ev config rest w'
  end.

(** Code that may suspend: [None] when it never resumes. *)
Definition Async (A : Type) : Type := world -> option (await_result A * world).

#[global] Instance Monad_Async : Monad Async := {|
  ret := fun A (a : A) w => Some (Value a, w);
  bind := fun A B (c : Async A) (k : A -> Async B) w =>
            match c w with
            | Some (Value a, w') => k a w'
            | Some (Thrown e, w') => Some (Thrown e, w')
            | None => None
            end
|}.

Definition lift {A : Type} (c : M A) : Async A := fun w => Some (c w).

(** [await ev.wait()]: returns at once when [ev] is set, without giving the
    loop a turn. *)
Definition Event_wait (ev : LifespanOn -> Event.t) (config : Config) : Async unit :=
  fun w =>
    if Event.is_set (ev (self w)) then Some (Value tt, w)
    else
      match run_until ev config (ready w)
              (mkWorld (self w) (output w) [] (getters w) (created w)) with
      | Some w' => Some (Value tt, w')
      | None => None
      end.

(** ** [LifespanOn.__init__], [startup] (lines 45-68), [shutdown] (lines 70-85) *)

(** A new coordinator on a loop with no runner yet (lines 37-43).  The
    configuration is never assigned again; it is passed to the methods that
    read [self.config]. *)
Definition __init__ : world :=
  mkWorld (mkLifespanOn Event.new Event.new [] false false false false Missing)
          [] [] [] 0.

(** [startup] up to its [await self.startup_event.wait()] (lines 49-58). *)
Definition startup_begin : M unit :=
  emit Print_startup_begin ;;
  create_task ;;
  Queue_put LifespanStartupEvent.

(** [startup] after the wait (lines 62-68). *)
Definition startup_end (config : Config) : M unit :=
  s <- get_self ;;
  if startup_failed s || (error_occured s && (lifespan config =? "on")) then
    emit (LogError "Application startup failed. Exiting." None) ;;
    update (with_should_exit true)
  else
    emit Print_startup_done.

Definition startup (config : Config) : Async unit :=
  lift startup_begin ;;
  Event_wait startup_event config ;;
  lift (startup_end config).

(** [shutdown] between its guard and its wait (lines 74-76). *)
Definition shutdown_begin : M unit :=
  emit Print_shutdown ;;
  Queue_put LifespanShutdownEvent.

(** [shutdown] after the wait (lines 79-85). *)
Definition shutdown_end (config : Config) : M unit :=
  s <- get_self ;;
  if shutdown_failed s || (error_occured s && (lifespan config =? "on")) then
    emit (LogError "Application shutdown failed. Exiting." None) ;;
    update (with_should_exit true)
  else
    emit (LogInfo "Application shutdown complete.").

Definition shutdown (config : Config) : Async unit :=
  s <- lift get_self ;;
  if error_occured s then ret tt
  else
    lift shutdown_begin ;;
    Event_wait shutdown_event config ;;
    lift (shutdown_end config).

(** [task.cancel()] on the runner that has waited longest in [receive()]:
    the pending [get] is abandoned and [CancelledError] is raised at the
    application's [await receive()] when the task is next scheduled. *)
Definition cancel_waiting_runner (w : world) : world :=
  match getters w with
  | InApp (AppReceive k) :: ts =>
      mkWorld (self w) (output w) (ready w ++ [InApp (k (Thrown CancelledError))]) ts (created w)
  | _ => w
  end.

(** ** Sample applications *)

Definition complete_startup : LifespanSendMessage :=
  mkSendMessage "lifespan.startup.complete" None.
Definition complete_shutdown : LifespanSendMessage :=
  mkSendMessage "lifespan.shutdown.complete" None.
Definition failed_startup (detail : option string) : LifespanSendMessage :=
  mkSendMessage "lifespan.startup.failed" detail.
Definition failed_shutdown (detail : option string) : LifespanSendMessage :=
  mkSendMessage "lifespan.shutdown.failed" detail.

(** [await receive()] and [await send(m)] with no [try] around them. *)
Definition receive_then (k : LifespanReceiveMessage -> app) : app :=
  AppReceive (fun r => match r with Value m => k m | Thrown e => AppRaise e end).
Definition send_then (m : LifespanSendMessage) (k : app) : app :=
  AppSend m (fun r => match r with Value _ => k | Thrown e => AppRaise e end).

(** The usual lifespan handler: acknowledge startup, then shutdown. *)
Definition well_behaved_app : app :=
  receive_then (fun _ => send_then complete_startup
    (receive_then (fun _ => send_then complete_shutdown AppReturn))).

(** A handler that acknowledges startup and returns without waiting for the
    shutdown message. *)
Definition early_return_app : app :=
  receive_then (fun _ => send_then complete_startup AppReturn).

(** A handler whose startup fails ("db unreachable") and which then returns. *)
Definition failing_startup_app : app :=
  receive_then (fun _ => send_then (failed_startup (Some "db unreachable")) AppReturn).

(** An application that does not speak the protocol. *)
Definition returning_app : app := AppReturn.
Definition raising_app : app := AppRaise (Exception "not a lifespan scope").

(** Sample runs: the world a call leaves behind (the world itself if the call
    never resumes). *)
Definition world_after (call : Async unit) (w : world) : world :=
  match call w with
  | Some (_, w') => w'
  | None => w
  end.

Definition well_behaved_on : Config := mkConfig "on" well_behaved_app.
Definition early_return_on : Config := mkConfig "on" early_return_app.
Definition failing_startup_on : Config := mkConfig "on" failing_startup_app.
Definition returning_on : Config := mkConfig "on" returning_app.
Definition returning_auto : Config := mkConfig "auto" returning_app.
Definition raising_on : Config := mkConfig "on" raising_app.
Definition raising_auto : Config := mkConfig "auto" raising_app.

(** ** The transition table of [send], as the specification words it

    Four rows: the message type, the required state of the startup signal
    (the shutdown signal must be unset in every row), the signal the row sets,
    and whether the row also raises the matching [*_failed] flag. *)

Inductive signal : Type := StartupSignal | ShutdownSignal.

Record table_row : Type := mkRow {
  requires_startup_set : bool;
  sets : signal;
  marks_failed : bool
}.

Definition transition_table (ty : string) : option table_row :=
  if ty =? "lifespan.startup.complete" then Some (mkRow false StartupSignal false)
  else if ty =? "lifespan.startup.failed" then Some (mkRow false StartupSignal true)
  else if ty =? "lifespan.shutdown.complete" then Some (mkRow true ShutdownSignal false)
  else if ty =? "lifespan.shutdown.failed" then Some (mkRow true ShutdownSignal true)
  else None.

Definition is_set (sg : signal) (s : LifespanOn) : bool :=
  match sg with
  | StartupSignal => Event.is_set (startup_event s)
  | ShutdownSignal => Event.is_set (shutdown_event s)
  end.

Definition precondition (row : table_row) (s : LifespanOn) : bool :=
  Bool.eqb (is_set StartupSignal s) (requires_startup_set row)
  && negb (is_set ShutdownSignal s).

(** The action of a row, field by field: the row's signal ends set, the
    matching failed flag ends true on a [*.failed] row, and every other field
    keeps its value. *)
Definition action (row : table_row) (s : LifespanOn) : LifespanOn :=
  match sets row with
  | StartupSignal =>
      mkLifespanOn true (shutdown_event s) (receive_queue s) (error_occured s)
        (marks_failed row || startup_failed s) (shutdown_failed s)
        (should_exit s) (asgi s)
  | ShutdownSignal =>
      mkLifespanOn (startup_event s) true (receive_queue s) (error_occured s)
        (startup_failed s) (marks_failed row || shutdown_failed s)
        (should_exit s) (asgi s)
  end.

(** ** Where the signals are set

    The two places of the class that call [Event.set]: [send], on the signal
    its message type names, and the [finally] clause of [main], on both. *)

Inductive step : Type :=
| Step_send (m : LifespanSendMessage)
| Step_main_exit (config : Config) (r : await_result unit).

Definition exec (st : step) : M unit :=
  match st with
  | Step_send m => send m
  | Step_main_exit config r => main_exit config r
  end.

Definition calls_set (st : step) (sg : signal) : bool :=
  match st with
  | Step_send m =>
      match sg with
      | StartupSignal =>                       (* lines 126 and 132 *)
          (msg_type m =? "lifespan.startup.complete")
          || (msg_type m =? "lifespan.startup.failed")
      | ShutdownSignal =>                      (* lines 142 and 148 *)
          (msg_type m =? "lifespan.shutdown.complete")
          || (msg_type m =? "lifespan.shutdown.failed")
      end
  | Step_main_exit _ _ => true                 (* lines 110 and 111 *)
  end.

(** ** Applications that end without sending

    [quiet_run a q]: with the messages [q] waiting in the queue, the
    application [a] ends (returning or raising) after reading some of them and
    without ever calling [send]; the result is how it ended and what it left
    in the queue.  [None]: it calls [send], or asks for more than [q] holds. *)
Fixpoint quiet_run (a : app) (q : list LifespanReceiveMessage)
  : option (await_result unit * list LifespanReceiveMessage) :=
  match a with
  | AppReturn => Some (Value tt, q)
  | AppRaise e => Some (Thrown e, q)
  | AppReceive k =>
      match q with
      | [] => None
      | m :: q' => quiet_run (k (Value m)) q'
      end
  | AppSend _ _ => None
  end.

(** ** Calls made on the coordinator

    What the hosting server can do with a coordinator: call [startup], call
    [shutdown], or cancel the runner that waits in [receive()].  A sequence of
    calls runs in order; it does not get past a call that never resumes. *)

Inductive call : Type := Call_startup | Call_shutdown | Call_cancel.

Definition run_call (config : Config) (c : call) : Async unit :=
  match c with
  | Call_startup => startup config
  | Call_shutdown => shutdown config
  | Call_cancel => lift (fun w => (Value tt, cancel_waiting_runner w))
  end.

Fixpoint run_calls (config : Config) (cs : list call) : Async unit :=
  match cs with
  | [] => ret tt
  | c :: cs' => run_call config c ;; run_calls config cs'
  end.

Definition is_startup (c : call) : bool :=
  match c with
  | Call_startup => true
  | _ => false
  end.

(** Two configurations that load the same application and give the same
    answers to the two tests the class makes on the mode,
    [config.lifespan == "auto"] and [config.lifespan == "on"]. *)
Definition same_mode (c1 c2 : Config) : Prop :=
  loaded_app c1 = loaded_app c2
  /\ (lifespan c1 =? "auto") = (lifespan c2 =? "auto")
  /\ (lifespan c1 =? "on") = (lifespan c2 =? "on").

(** The four boolean attributes of the coordinator. *)
Inductive flag : Type :=
| Flag_error_occured | Flag_startup_failed | Flag_shutdown_failed | Flag_should_exit.

Definition flag_value (f : flag) (s : LifespanOn) : bool :=
  match f with
  | Flag_error_occured => error_occured s
  | Flag_startup_failed => startup_failed s
  | Flag_shutdown_failed => shutdown_failed s
  | Flag_should_exit => should_exit s
  end.

(** How the fields of a coordinator hang together between two calls: the
    shutdown signal is set only if the startup signal is; a failed flag is up
    only if its signal is set; after an error both signals are set; and [asgi]
    has been assigned exactly when an error occurred. *)
Definition consistent (s : LifespanOn) : bool :=
  implb (Event.is_set (shutdown_event s)) (Event.is_set (startup_event s))
  && implb (startup_failed s) (Event.is_set (startup_event s))
  && implb (shutdown_failed s) (Event.is_set (shutdown_event s))
  && implb (error_occured s)
       (Event.is_set (startup_event s) && Event.is_set (shutdown_event s))
  && Bool.eqb (error_occured s) match asgi s with PyNone => true | Missing => false end.

(** What [send] writes for a message: the type, always and first; ["okk"] in
    the [lifespan.shutdown.complete] branch; and, once a [*.failed] message is
    accepted, its detail if there is a non-empty one. *)
Definition send_prints (m : LifespanSendMessage) : list out_event :=
  Print_send (msg_type m)
  :: (if msg_type m =? "lifespan.shutdown.complete" then [Print_okk] else []).

Definition send_logs (m : LifespanSendMessage) : list out_event :=
  match transition_table (msg_type m), msg_message m with
  | Some row, Some detail =>
      if marks_failed row && negb (detail =? "") then [LogError detail None] else []
  | _, _ => []
  end.

(** Whether a scheduling of the application ended with an exception leaving
    the application call. *)
Definition ends_raising (st : status) : bool :=
  match st with
  | Exited (Thrown _) => true
  | _ => false
  end.

(** The world right after [send] has accepted [lifespan.startup.failed] as
    the answer to the startup message of a new coordinator. *)
Definition world_after_startup_failed (detail : option string) : world :=
  mkWorld (mkLifespanOn true false [] false true false false Missing)
          ([Print_startup_begin; Print_main_app; Print_send "lifespan.startup.failed"]
           ++ send_logs (failed_startup detail))
          [] [] 1.

(** One turn of the event loop while the server does something else than
    calling the coordinator: every scheduled runner task runs once. *)
Definition loop_turn (config : Config) (w : world) : world :=
  run_tasks config (ready w) (mkWorld (self w) (output w) [] (getters w) (created w)).

(** The world in which the first runner of a new coordinator is scheduled:
    [startup] has printed its line and put [lifespan.startup] on the queue. *)
Definition first_run_world : world :=
  mkWorld (mkLifespanOn Event.new Event.new [LifespanStartupEvent]
             false false false false Missing)
          [Print_startup_begin] [] [] 1.

(** ** Properties of [send] *)

Ltac case_type ty c :=
  let E := fresh "E" in
  destruct (String.eqb_spec ty c) as [E | E];
  [ subst ty | apply String.eqb_neq in E ].

(** Closed goals about sample runs: evaluate each conjunct. *)
Ltac by_evaluation :=
  repeat match goal with |- _ /\ _ => split end; vm_compute; reflexivity.

Ltac open_world w :=
  let s := fresh "s" in
  destruct w as [s ? ? ? ?]; destruct s as [? ? ? ? ? ? ? ?].

Lemma send_types_spec : forall ty,
  existsb (String.eqb ty) send_types =
  match transition_table ty with Some _ => true | None => false end.
Proof.
  intros ty. unfold transition_table, send_types. cbn [existsb].
  destruct (ty =? "lifespan.startup.complete"); [reflexivity|].
  destruct (ty =? "lifespan.startup.failed"); [reflexivity|].
  destruct (ty =? "lifespan.shutdown.complete"); [reflexivity|].
  destruct (ty =? "lifespan.shutdown.failed"); reflexivity.
Qed.

(** [send] as one case analysis: a message outside the table fails the first
    assertion; a row whose precondition fails raises the state-transition
    assertion; otherwise the row's action is applied.  In the two failing
    cases no field of the coordinator changes. *)
Lemma send_by_table : forall m w,
  fst (send m w) =
    match transition_table (msg_type m) with
    | None => Thrown (AssertionError None)
    | Some row =>
        if precondition row (self w) then Value tt
        else Thrown (AssertionError (Some STATE_TRANSITION_ERROR))
    end
  /\ self (snd (send m w)) =
    match transition_table (msg_type m) with
    | None => self w
    | Some row => if precondition row (self w) then action row (self w) else self w
    end
  /\ ready (snd (send m w)) = ready w
  /\ getters (snd (send m w)) = getters w
  /\ created (snd (send m w)) = created w.
Proof.
  intros [ty detail] w. open_world w. cbn [msg_type].
  case_type ty "lifespan.startup.complete".
  { destruct startup_event0, shutdown_event0; repeat split; reflexivity. }
  case_type ty "lifespan.startup.failed".
  { destruct startup_event0, shutdown_event0, detail as [[|c d]|]; repeat split; reflexivity. }
  case_type ty "lifespan.shutdown.complete".
  { destruct startup_event0, shutdown_event0; repeat split; reflexivity. }
  case_type ty "lifespan.shutdown.failed".
  { destruct startup_event0, shutdown_event0, detail as [[|c d]|]; repeat split; reflexivity. }
  unfold send. rewrite send_types_spec. unfold transition_table. cbn [msg_type].
  rewrite E, E0, E1, E2. repeat split; reflexivity.
Qed.

(** What a row's action leaves alone. *)
Lemma action_frame : forall row s,
  error_occured (action row s) = error_occured s
  /\ should_exit (action row s) = should_exit s
  /\ receive_queue (action row s) = receive_queue s
  /\ asgi (action row s) = asgi s.
Proof. intros [rs [|] [|]] s; repeat split; reflexivity. Qed.

(** C1. Every message handed to [send] is checked against the transition
    table: a type outside the four [*.complete]/[*.failed] variants fails the
    membership assertion; for a type in the table the row's precondition
    (startup rows: both signals unset; shutdown rows: startup signal set and
    shutdown signal unset) is asserted, its violation raising the assertion
    error that carries [STATE_TRANSITION_ERROR]; and when it holds the row's
    action is performed: afterwards the row's signal is set, on the
    [*.failed] rows the matching failed flag is true, and all the other
    fields are as before. *)
Theorem send_enforces_transition_table : forall m w,
  match transition_table (msg_type m) with
  | None =>
      ~ In (msg_type m) send_types
      /\ fst (send m w) = Thrown (AssertionError None)
  | Some row =>
      In (msg_type m) send_types
      /\ if precondition row (self w)
         then fst (send m w) = Value tt
              /\ self (snd (send m w)) = action row (self w)
              /\ match sets row with
                 | StartupSignal =>
                     startup_event (self (snd (send m w))) = true
                     /\ shutdown_event (self (snd (send m w))) = false
                     /\ startup_failed (self (snd (send m w)))
                        = (marks_failed row || startup_failed (self w))
                     /\ shutdown_failed (self (snd (send m w)))
                        = shutdown_failed (self w)
                 | ShutdownSignal =>
                     startup_event (self (snd (send m w))) = true
                     /\ shutdown_event (self (snd (send m w))) = true
                     /\ shutdown_failed (self (snd (send m w)))
                        = (marks_failed row || shutdown_failed (self w))
                     /\ startup_failed (self (snd (send m w)))
                        = startup_failed (self w)
                 end
         else fst (send m w) = Thrown (AssertionError (Some STATE_TRANSITION_ERROR))
              /\ self (snd (send m w)) = self w
  end.
Proof.
  intros m w.
  destruct (send_by_table m w) as (Hr & Hs & _).
  pose proof (send_types_spec (msg_type m)) as Hin.
  assert (forall ty row, transition_table ty = Some row ->
            requires_startup_set row
            = match sets row with StartupSignal => false | ShutdownSignal => true end)
    as Hrows.
  { intros ty row. unfold transition_table.
    destruct (ty =? "lifespan.startup.complete"); [intros [= <-]; reflexivity|].
    destruct (ty =? "lifespan.startup.failed"); [intros [= <-]; reflexivity|].
    destruct (ty =? "lifespan.shutdown.complete"); [intros [= <-]; reflexivity|].
    destruct (ty =? "lifespan.shutdown.failed"); [intros [= <-]; reflexivity|].
    discriminate. }
  destruct (transition_table (msg_type m)) as [row|] eqn:Et.
  - split.
    + apply existsb_exists in Hin. destruct Hin as (c & Hc & Heq).
      apply String.eqb_eq in Heq. subst c. exact Hc.
    + specialize (Hrows _ _ Et).
      destruct (precondition row (self w)) eqn:Hp; [|split; assumption].
      split; [exact Hr|]. split; [exact Hs|]. rewrite Hs.
      unfold precondition, is_set, Event.is_set in Hp. rewrite Hrows in Hp.
      destruct row as [rs [|] mf]; cbn [sets action requires_startup_set] in *;
        destruct (startup_event (self w)), (shutdown_event (self w));
        try discriminate Hp; repeat split; reflexivity.
  - split; [|exact Hr].
    intros Hc.
    assert (existsb (String.eqb (msg_type m)) send_types = true) as Ht.
    { apply existsb_exists. exists (msg_type m). split; [exact Hc|apply String.eqb_refl]. }
    congruence.
Qed.

(** C10. A message that [send] accepts changes nothing but the two signals
    and the two failed flags: [error_occured], [should_exit] and the contents
    of the receive queue are as before (and so are the [asgi] attribute and
    the loop's task lists). *)
Theorem send_frame : forall m w w',
  send m w = (Value tt, w') ->
  error_occured (self w') = error_occured (self w)
  /\ should_exit (self w') = should_exit (self w)
  /\ receive_queue (self w') = receive_queue (self w)
  /\ asgi (self w') = asgi (self w)
  /\ ready w' = ready w /\ getters w' = getters w /\ created w' = created w.
Proof.
  intros m w w' H.
  destruct (send_by_table m w) as (Hr & Hs & Hrd & Hg & Hc).
  rewrite H in *. cbn [fst snd] in *.
  rewrite Hs, Hrd, Hg, Hc.
  destruct (transition_table (msg_type m)) as [row|]; [|discriminate].
  destruct (precondition row (self w)); [|discriminate].
  destruct (action_frame row (self w)) as (-> & -> & -> & ->).
  repeat split; reflexivity.
Qed.

Lemma send_frame_witness :
  error_occured (self (snd (send complete_startup __init__))) = error_occured (self __init__)
  /\ should_exit (self (snd (send complete_startup __init__))) = should_exit (self __init__)
  /\ receive_queue (self (snd (send complete_startup __init__))) = receive_queue (self __init__)
  /\ asgi (self (snd (send complete_startup __init__))) = asgi (self __init__)
  /\ ready (snd (send complete_startup __init__)) = ready __init__
  /\ getters (snd (send complete_startup __init__)) = getters __init__
  /\ created (snd (send complete_startup __init__)) = created __init__.
Proof. apply (send_frame complete_startup __init__). reflexivity. Defined.

(** ** Properties of [main] *)

(** The [except] clause and the [finally] clause never raise. *)
Lemma main_except_value : forall config exc w, fst (main_except config exc w) = Value tt.
Proof.
  intros config exc w. open_world w. unfold main_except. cbn.
  destruct (startup_failed0 || shutdown_failed0); [reflexivity|].
  destruct (lifespan config =? "auto"); reflexivity.
Qed.

Lemma main_exit_unfold : forall config r w,
  main_exit config r w =
  (Value tt,
   with_self (fun s => set_shutdown_event (set_startup_event s))
     match r with
     | Value _ => w
     | Thrown exc => snd (main_except config exc w)
     end).
Proof.
  intros config [[]|exc] w; unfold main_exit; [reflexivity|].
  pose proof (main_except_value config exc w) as H.
  destruct (main_except config exc w) as [r' w']. cbn [fst snd] in *. subst r'.
  reflexivity.
Qed.

(** One scheduling of a task ends in [main]'s exit exactly when the
    application call ended. *)
Lemma run_task_exited : forall config t w r w1,
  step_task config t w = (Exited r, w1) ->
  run_task config t w = snd (main_exit config r w1).
Proof. intros config t w r w1 H. unfold run_task. rewrite H. reflexivity. Qed.

(** C2. Whatever way [await app(...)] ends inside [main] -- it returns, it
    raises, or the task is cancelled ([CancelledError] raised at its await) --
    [main] ends by setting both [startup_event] and [shutdown_event], and
    nothing escapes it.  Hence a runner task that ends leaves both signals
    set, and a caller waiting on either signal resumes once the runner it
    waits for has ended. *)
Theorem main_always_sets_both_events :
  (forall config r w,
     fst (main_exit config r w) = Value tt
     /\ startup_event (self (snd (main_exit config r w))) = true
     /\ shutdown_event (self (snd (main_exit config r w))) = true)
  /\ (forall config t w r w1,
        step_task config t w = (Exited r, w1) ->
        startup_event (self (run_task config t w)) = true
        /\ shutdown_event (self (run_task config t w)) = true
        /\ forall rest,
             run_until startup_event config (t :: rest) w
               = Some (run_tasks config rest (run_task config t w))
             /\ run_until shutdown_event config (t :: rest) w
               = Some (run_tasks config rest (run_task config t w))).
Proof.
  split.
  - intros config r w. rewrite main_exit_unfold. repeat split; reflexivity.
  - intros config t w r w1 H.
    assert (startup_event (self (run_task config t w)) = true
            /\ shutdown_event (self (run_task config t w)) = true) as [Hs Hd].
    { rewrite (run_task_exited _ _ _ H), main_exit_unfold. split; reflexivity. }
    repeat split; trivial; cbn [run_until]; unfold Event.is_set.
    + rewrite Hs. reflexivity.
    + rewrite Hd. reflexivity.
Qed.

(** After a successful startup the runner waits in [receive()]; it is
    cancelled and scheduled again. *)
Lemma main_always_sets_both_events_witness :
  hd_error (ready (cancel_waiting_runner (world_after (startup well_behaved_on) __init__)))
    = Some (InApp (AppRaise CancelledError))
  /\ step_task well_behaved_on (InApp (AppRaise CancelledError))
       (cancel_waiting_runner (world_after (startup well_behaved_on) __init__))
     = (Exited (Thrown CancelledError),
        cancel_waiting_runner (world_after (startup well_behaved_on) __init__))
  /\ startup_event (self (run_task well_behaved_on (InApp (AppRaise CancelledError))
         (cancel_waiting_runner (world_after (startup well_behaved_on) __init__)))) = true
  /\ shutdown_event (self (run_task well_behaved_on (InApp (AppRaise CancelledError))
         (cancel_waiting_runner (world_after (startup well_behaved_on) __init__)))) = true.
Proof.
  split; [reflexivity|]. split; [reflexivity|].
  destruct main_always_sets_both_events as [_ H].
  destruct (H well_behaved_on (InApp (AppRaise CancelledError))
              (cancel_waiting_runner (world_after (startup well_behaved_on) __init__))
              (Thrown CancelledError)
              (cancel_waiting_runner (world_after (startup well_behaved_on) __init__))
              eq_refl) as (Hs & Hd & _).
  split; assumption.
Defined.

(** C3. A failure that escapes the application call is caught by [main] and
    goes no further; [error_occured] becomes true.  If [startup_failed] or
    [shutdown_failed] is already true nothing is logged; otherwise the mode
    ["auto"] gets one informational record and any other mode one error
    record that carries the failure. *)
Theorem main_catches_failure : forall config exc w,
  fst (main_exit config (Thrown exc) w) = Value tt
  /\ error_occured (self (snd (main_exit config (Thrown exc) w))) = true
  /\ output (snd (main_exit config (Thrown exc) w)) =
       (output w ++
        if startup_failed (self w) || shutdown_failed (self w) then []
        else if lifespan config =? "auto"
             then [LogInfo "ASGI 'lifespan' protocol appears unsupported."]
             else [LogError exception_msg (Some exc)])%list
  /\ should_exit (self (snd (main_exit config (Thrown exc) w))) = should_exit (self w)
  /\ startup_failed (self (snd (main_exit config (Thrown exc) w))) = startup_failed (self w)
  /\ shutdown_failed (self (snd (main_exit config (Thrown exc) w))) = shutdown_failed (self w).
Proof.
  intros config exc w. rewrite main_exit_unfold. open_world w.
  unfold main_except. cbn.
  destruct (startup_failed0 || shutdown_failed0).
  - cbn. rewrite app_nil_r. repeat split; reflexivity.
  - destruct (lifespan config =? "auto"); cbn; repeat split; reflexivity.
Qed.

(** ** Properties of [startup] and [shutdown] *)

Lemma startup_begin_unfold : forall w,
  startup_begin w = (Value tt, snd (startup_begin w)).
Proof. intros w. unfold startup_begin. cbn. destruct (getters w); reflexivity. Qed.

Lemma Event_wait_value : forall ev config w r w',
  Event_wait ev config w = Some (r, w') -> r = Value tt.
Proof.
  intros ev config w r w'. unfold Event_wait.
  destruct (Event.is_set (ev (self w))); [congruence|].
  destruct (run_until _ _ _ _); congruence.
Qed.

Lemma startup_unfold : forall config w,
  startup config w =
  match Event_wait startup_event config (snd (startup_begin w)) with
  | Some (_, w1) => Some (startup_end config w1)
  | None => None
  end.
Proof.
  intros config w. unfold startup, lift. cbn -[startup_begin startup_end Event_wait].
  rewrite startup_begin_unfold. cbn [snd].
  destruct (Event_wait startup_event config (snd (startup_begin w))) as [[r w1]|] eqn:E;
    [|reflexivity].
  apply Event_wait_value in E. subst r. reflexivity.
Qed.

Lemma startup_end_unfold : forall config w1,
  startup_end config w1 =
  (Value tt,
   if startup_failed (self w1) || (error_occured (self w1) && (lifespan config =? "on"))
   then with_self (with_should_exit true)
          (snd (emit (LogError "Application startup failed. Exiting." None) w1))
   else snd (emit Print_startup_done w1)).
Proof.
  intros config w1. unfold startup_end. cbn.
  destruct (startup_failed (self w1) || (error_occured (self w1) && (lifespan config =? "on")));
    reflexivity.
Qed.

(** C4. Once the wait on the startup signal is over, [startup] sets
    [should_exit] exactly when [startup_failed] holds, or [error_occured]
    holds and the mode is ["on"] (then it logs the startup failure at error
    level); otherwise [should_exit] keeps its value and the success line is
    printed.  No other field changes, and [startup] never ends by raising. *)
Theorem startup_outcome :
  (forall config w,
     startup config w =
     match Event_wait startup_event config (snd (startup_begin w)) with
     | Some (_, w1) => Some (startup_end config w1)
     | None => None
     end)
  /\ (forall config w1,
        fst (startup_end config w1) = Value tt
        /\ should_exit (self (snd (startup_end config w1))) =
             (if startup_failed (self w1)
                 || (error_occured (self w1) && (lifespan config =? "on"))
              then true else should_exit (self w1))
        /\ output (snd (startup_end config w1)) =
             (output w1 ++
              [if startup_failed (self w1)
                  || (error_occured (self w1) && (lifespan config =? "on"))
               then LogError "Application startup failed. Exiting." None
               else Print_startup_done])%list
        /\ with_should_exit (should_exit (self w1)) (self (snd (startup_end config w1)))
             = self w1)
  /\ (forall config w exc w', startup config w <> Some (Thrown exc, w')).
Proof.
  split; [exact startup_unfold|]. split.
  - intros config w1. rewrite startup_end_unfold. open_world w1. cbn.
    destruct (startup_failed0 || (error_occured0 && (lifespan config =? "on")));
      repeat split; reflexivity.
  - intros config w exc w'. rewrite startup_unfold.
    destruct (Event_wait startup_event config (snd (startup_begin w))) as [[r w1]|];
      [|discriminate].
    rewrite startup_end_unfold. discriminate.
Qed.

Lemma shutdown_skipped_after_error_aux : forall config w,
  error_occured (self w) = true ->
  shutdown config w = Some (Value tt, w).
Proof.
  intros config w H. unfold shutdown, lift. cbn. rewrite H. reflexivity.
Qed.

(** C5. When [error_occured] is true, [shutdown] returns at once: nothing is
    put on the queue, no signal is waited for, and the whole state -- the
    coordinator's fields, the output and the loop -- is as it was. *)
Theorem shutdown_skipped_after_error : forall config w,
  error_occured (self w) = true ->
  shutdown config w = Some (Value tt, w).
Proof.
  intros config w H. unfold shutdown, lift.
  cbn -[shutdown_begin shutdown_end Event_wait]. rewrite H. reflexivity.
Qed.

Lemma shutdown_skipped_after_error_witness :
  error_occured (self (with_self (with_error_occured true) __init__)) = true
  /\ shutdown (mkConfig "on" well_behaved_app) (with_self (with_error_occured true) __init__)
     = Some (Value tt, with_self (with_error_occured true) __init__).
Proof.
  split; [reflexivity|].
  apply (shutdown_skipped_after_error (mkConfig "on" well_behaved_app)
           (with_self (with_error_occured true) __init__)).
  reflexivity.
Defined.

(** ** Invariants of the runner tasks

    A property of the world that survives [send], the removal of queue
    entries, output, a task joining the getters and the exit of [main]
    survives every scheduling of every task, hence every wait. *)
Section Invariants.

Variable P : world -> Prop.
Hypothesis P_send : forall m w, P w -> P (snd (send m w)).
Hypothesis P_queue : forall q w, P w -> P (with_self (with_receive_queue q) w).
Hypothesis P_emit : forall o w, P w -> P (snd (emit o w)).
Hypothesis P_getter : forall a w, P w -> P (add_getter a w).
Hypothesis P_exit : forall config r w, P w -> P (snd (main_exit config r w)).
Hypothesis P_ready : forall w,
  P w -> P (mkWorld (self w) (output w) [] (getters w) (created w)).

Lemma run_app_inv : forall a w, P w -> P (snd (run_app a w)).
Proof.
  induction a as [| e | k IH | m k IH]; intros w Hw; cbn [run_app].
  - exact Hw.
  - exact Hw.
  - unfold receive. destruct (receive_queue (self w)) as [|msg q]; [exact Hw|].
    apply IH, P_queue, Hw.
  - specialize (P_send m Hw). destruct (send m w) as [r w1].
    apply IH. exact P_send.
Qed.

Lemma step_task_inv : forall config t w, P w -> P (snd (step_task config t w)).
Proof.
  intros config [|a] w Hw; cbn [step_task]; unfold main.
  - specialize (P_emit Print_main_app Hw).
    destruct (emit Print_main_app w) as [u w1]. apply run_app_inv, P_emit.
  - apply run_app_inv, Hw.
Qed.

Lemma settle_inv : forall config sw, P (snd sw) -> P (settle config sw).
Proof.
  intros config [[a|r] w1] H; cbn [snd settle] in *.
  - apply P_getter, H.
  - apply P_exit, H.
Qed.

Lemma run_task_inv : forall config t w, P w -> P (run_task config t w).
Proof.
  intros config t w Hw. unfold run_task. apply settle_inv, step_task_inv, Hw.
Qed.

Lemma run_tasks_inv : forall config ts w, P w -> P (run_tasks config ts w).
Proof.
  intros config ts. unfold run_tasks.
  induction ts as [|t ts IH]; intros w Hw; cbn [fold_left]; [exact Hw|].
  apply IH, run_task_inv, Hw.
Qed.

Lemma run_until_inv : forall ev config ts w w',
  P w -> run_until ev config ts w = Some w' -> P w'.
Proof.
  intros ev config ts.
  induction ts as [|t ts IH]; intros w w' Hw H; cbn [run_until] in H; [discriminate|].
  destruct (Event.is_set (ev (self (run_task config t w)))).
  - injection H as <-. apply run_tasks_inv, run_task_inv, Hw.
  - eapply IH; [|exact H]. apply run_task_inv, Hw.
Qed.

Lemma Event_wait_inv : forall ev config w r w',
  P w -> Event_wait ev config w = Some (r, w') -> P w'.
Proof.
  intros ev config w r w' Hw. unfold Event_wait.
  destruct (Event.is_set (ev (self w))).
  - intros H. injection H as _ <-. exact Hw.
  - destruct (run_until _ _ _ _) as [w1|] eqn:E; [|discriminate].
    intros H. injection H as _ <-.
    eapply run_until_inv; [|exact E]. apply P_ready, Hw.
Qed.

End Invariants.

(** The instances used below: the task counter, the two latches and the
    startup failure flag. *)

Lemma send_keeps_set : forall sg m w,
  is_set sg (self w) = true -> is_set sg (self (snd (send m w))) = true.
Proof.
  intros sg m w H. destruct (send_by_table m w) as (_ & -> & _).
  destruct (transition_table (msg_type m)) as [row|]; [|exact H].
  destruct (precondition row (self w)); [|exact H].
  destruct row as [rs [|] [|]], sg; cbn in *; auto.
Qed.

Lemma send_keeps_startup_failed : forall m w,
  startup_failed (self w) = true -> startup_failed (self (snd (send m w))) = true.
Proof.
  intros m w H. destruct (send_by_table m w) as (_ & -> & _).
  destruct (transition_table (msg_type m)) as [row|]; [|exact H].
  destruct (precondition row (self w)); [|exact H].
  destruct row as [rs [|] [|]]; cbn in *; auto.
Qed.

Lemma main_except_frame : forall config exc w,
  startup_event (self (snd (main_except config exc w))) = startup_event (self w)
  /\ shutdown_event (self (snd (main_except config exc w))) = shutdown_event (self w)
  /\ startup_failed (self (snd (main_except config exc w))) = startup_failed (self w)
  /\ created (snd (main_except config exc w)) = created w.
Proof.
  intros config exc w. open_world w. unfold main_except. cbn.
  destruct (startup_failed0 || shutdown_failed0); [repeat split; reflexivity|].
  destruct (lifespan config =? "auto"); repeat split; reflexivity.
Qed.

Lemma main_exit_frame : forall config r w,
  startup_failed (self (snd (main_exit config r w))) = startup_failed (self w)
  /\ created (snd (main_exit config r w)) = created w.
Proof.
  intros config r w. rewrite main_exit_unfold.
  unfold with_self, set_shutdown_event, set_startup_event.
  cbn [snd self created startup_failed].
  destruct r as [[]|exc]; [split; reflexivity|].
  destruct (main_except_frame config exc w) as (_ & _ & -> & ->). split; reflexivity.
Qed.

Lemma wait_keeps_created : forall n ev config w r w',
  created w = n -> Event_wait ev config w = Some (r, w') -> created w' = n.
Proof.
  intros n ev config w r w'.
  apply (Event_wait_inv (fun w => created w = n)); try (intros; assumption).
  - intros m w0 H. destruct (send_by_table m w0) as (_ & _ & _ & _ & ->). exact H.
  - intros config0 r0 w0 H. destruct (main_exit_frame config0 r0 w0) as (_ & ->). exact H.
Qed.

Lemma run_task_keeps_set : forall sg config t w,
  is_set sg (self w) = true -> is_set sg (self (run_task config t w)) = true.
Proof.
  intros sg config t w.
  apply (run_task_inv (fun w => is_set sg (self w) = true)); try (intros; assumption).
  - intros m w0. apply send_keeps_set.
  - intros config0 r w0 _. rewrite main_exit_unfold. destruct sg; reflexivity.
Qed.

Lemma run_task_keeps_startup_failed : forall config t w,
  startup_failed (self w) = true -> startup_failed (self (run_task config t w)) = true.
Proof.
  intros config t w.
  apply (run_task_inv (fun w => startup_failed (self w) = true)); try (intros; assumption).
  - intros m w0. apply send_keeps_startup_failed.
  - intros config0 r0 w0 H. destruct (main_exit_frame config0 r0 w0) as (-> & _). exact H.
Qed.

(** ** How many runner tasks are created *)

Lemma startup_begin_created : forall w,
  created (snd (startup_begin w)) = S (created w)
  /\ exists woken, ready (snd (startup_begin w)) = (ready w ++ NotStarted :: woken)%list.
Proof.
  intros w. unfold startup_begin. cbn. destruct (getters w) as [|t ts]; cbn.
  - split; [reflexivity|]. exists []. reflexivity.
  - split; [reflexivity|]. exists [t]. rewrite <- app_assoc. reflexivity.
Qed.

Lemma startup_end_created : forall config w,
  created (snd (startup_end config w)) = created w.
Proof.
  intros config w. rewrite startup_end_unfold.
  destruct (startup_failed (self w) || (error_occured (self w) && (lifespan config =? "on")));
    reflexivity.
Qed.

Lemma shutdown_unfold : forall config w,
  error_occured (self w) = false ->
  shutdown config w =
  match Event_wait shutdown_event config (snd (shutdown_begin w)) with
  | Some (_, w1) => Some (shutdown_end config w1)
  | None => None
  end.
Proof.
  intros config w H. unfold shutdown, lift.
  cbn -[shutdown_begin shutdown_end Event_wait]. rewrite H.
  cbn -[shutdown_begin shutdown_end Event_wait].
  assert (shutdown_begin w = (Value tt, snd (shutdown_begin w))) as ->.
  { unfold shutdown_begin. cbn. destruct (getters w); reflexivity. }
  cbn [snd].
  destruct (Event_wait shutdown_event config (snd (shutdown_begin w))) as [[r w1]|] eqn:E;
    [|reflexivity].
  apply Event_wait_value in E. subst r. reflexivity.
Qed.

Lemma shutdown_begin_spec : forall w,
  receive_queue (self (snd (shutdown_begin w)))
    = (receive_queue (self w) ++ [LifespanShutdownEvent])%list
  /\ output (snd (shutdown_begin w)) = (output w ++ [Print_shutdown])%list
  /\ created (snd (shutdown_begin w)) = created w.
Proof.
  intros w. unfold shutdown_begin. cbn. destruct (getters w); repeat split; reflexivity.
Qed.

Lemma shutdown_end_created : forall config w,
  created (snd (shutdown_end config w)) = created w.
Proof.
  intros config w. unfold shutdown_end. cbn.
  destruct (shutdown_failed (self w) || (error_occured (self w) && (lifespan config =? "on")));
    reflexivity.
Qed.

(** C6, as the code has it.  [startup] has no guard around [create_task]:
    the coordinator is built with no runner, and every call of [startup],
    first or not, creates one more runner task and schedules it; [shutdown]
    creates none.  The runner is started once only as long as [startup] is
    called once. *)
Theorem startup_creates_a_runner_each_call :
  created __init__ = 0
  /\ (forall w,
        created (snd (startup_begin w)) = S (created w)
        /\ exists woken,
             ready (snd (startup_begin w)) = (ready w ++ NotStarted :: woken)%list)
  /\ (forall config w r w',
        startup config w = Some (r, w') -> created w' = S (created w))
  /\ (forall config w r w',
        shutdown config w = Some (r, w') -> created w' = created w).
Proof.
  split; [reflexivity|]. split; [exact startup_begin_created|]. split.
  - intros config w r w' H. rewrite startup_unfold in H.
    destruct (Event_wait startup_event config (snd (startup_begin w))) as [[r1 w1]|] eqn:E;
      [|discriminate].
    injection H as H.
    replace w' with (snd (startup_end config w1)) by (rewrite H; reflexivity).
    rewrite startup_end_created.
    eapply wait_keeps_created; [|exact E]. apply startup_begin_created.
  - intros config w r w' H.
    destruct (error_occured (self w)) eqn:Eo.
    + rewrite (shutdown_skipped_after_error_aux config w Eo) in H.
      injection H as _ <-. reflexivity.
    + rewrite (shutdown_unfold config w Eo) in H.
      destruct (Event_wait shutdown_event config (snd (shutdown_begin w))) as [[r1 w1]|] eqn:E;
        [|discriminate].
      injection H as H.
      replace w' with (snd (shutdown_end config w1)) by (rewrite H; reflexivity).
      rewrite shutdown_end_created.
      eapply wait_keeps_created; [|exact E]. apply shutdown_begin_spec.
Qed.

Lemma startup_creates_a_runner_each_call_witness :
  startup well_behaved_on __init__
    = Some (Value tt, world_after (startup well_behaved_on) __init__)
  /\ created (world_after (startup well_behaved_on) __init__) = 1.
Proof.
  destruct startup_creates_a_runner_each_call as (_ & _ & H & _).
  split; [vm_compute; reflexivity|].
  apply (H well_behaved_on __init__ (Value tt)). vm_compute. reflexivity.
Defined.

(** C6, as stated, fails: a second call of [startup] on the same coordinator
    creates a second runner task, which is scheduled on the loop. *)
Lemma second_startup_creates_second_runner :
  startup well_behaved_on __init__
    = Some (Value tt, world_after (startup well_behaved_on) __init__)
  /\ startup well_behaved_on (world_after (startup well_behaved_on) __init__)
    = Some (Value tt,
            world_after (startup well_behaved_on)
              (world_after (startup well_behaved_on) __init__))
  /\ created (world_after (startup well_behaved_on) __init__) = 1
  /\ created (world_after (startup well_behaved_on)
                (world_after (startup well_behaved_on) __init__)) = 2
  /\ hd_error (ready (world_after (startup well_behaved_on)
                        (world_after (startup well_behaved_on) __init__)))
     = Some NotStarted.
Proof. by_evaluation. Qed.

(** ** An application that ends without sending *)

Lemma with_receive_queue_twice : forall q q' w,
  with_self (with_receive_queue q') (with_self (with_receive_queue q) w)
  = with_self (with_receive_queue q') w.
Proof. intros q q' w. reflexivity. Qed.

Lemma with_receive_queue_same : forall w,
  with_self (with_receive_queue (receive_queue (self w))) w = w.
Proof. intros w. open_world w. reflexivity. Qed.

(** [quiet_run] describes [run_app] on such applications: the run ends the
    same way and only the queue has changed. *)
Lemma run_app_quiet : forall a q r q',
  quiet_run a q = Some (r, q') ->
  forall w, receive_queue (self w) = q ->
  run_app a w = (Exited r, with_self (with_receive_queue q') w).
Proof.
  induction a as [| e | k IH | m k IH]; intros q r q' H w Hq; cbn [quiet_run run_app] in *.
  - injection H as <- <-. rewrite <- Hq, with_receive_queue_same. reflexivity.
  - injection H as <- <-. rewrite <- Hq, with_receive_queue_same. reflexivity.
  - unfold receive. rewrite Hq. destruct q as [|msg q1]; [discriminate|].
    rewrite (IH (Value msg) q1 r q' H); [|reflexivity].
    rewrite with_receive_queue_twice. reflexivity.
  - discriminate.
Qed.

(** C7, as the code has it.  On a fresh coordinator, if the application ends
    without ever sending a message, [startup] still returns.  When the
    application returned, [main] skips its [except] clause: [error_occured]
    stays false, [main] logs nothing, [should_exit] stays false and [startup]
    reports success, whatever the mode.  When it raised, [error_occured]
    becomes true, mode ["auto"] logs an informational record (any other mode
    an error record), and [should_exit] becomes true exactly under ["on"]. *)
Theorem startup_with_silent_application : forall config r q',
  quiet_run (loaded_app config) [LifespanStartupEvent] = Some (r, q') ->
  exists w',
    startup config __init__ = Some (Value tt, w')
    /\ startup_event (self w') = true
    /\ match r with
       | Value _ =>
           error_occured (self w') = false
           /\ should_exit (self w') = false
           /\ output w' = [Print_startup_begin; Print_main_app; Print_startup_done]
       | Thrown exc =>
           error_occured (self w') = true
           /\ should_exit (self w') = (lifespan config =? "on")
           /\ output w' =
                [Print_startup_begin; Print_main_app;
                 if lifespan config =? "auto"
                 then LogInfo "ASGI 'lifespan' protocol appears unsupported."
                 else LogError exception_msg (Some exc);
                 if lifespan config =? "on"
                 then LogError "Application startup failed. Exiting." None
                 else Print_startup_done]
       end.
Proof.
  intros config r q' H.
  rewrite startup_unfold.
  change (snd (startup_begin __init__)) with
    (mkWorld (mkLifespanOn false false [LifespanStartupEvent] false false false false Missing)
             [Print_startup_begin] [NotStarted] [] 1).
  unfold Event_wait. cbn [self startup_event Event.is_set ready output getters created].
  cbn [run_until]. unfold run_task at 1 2. cbn [step_task]. unfold main. cbn [emit].
  cbn [self startup_event Event.is_set ready output getters created List.app].
  erewrite run_app_quiet; [|exact H|reflexivity].
  cbn [settle]. rewrite main_exit_unfold. cbn [snd run_tasks fold_left].
  destruct r as [[]|exc].
  - cbn. eexists. split; [reflexivity|]. repeat split; reflexivity.
  - unfold main_except, startup_end. cbn -[String.eqb exception_msg].
    destruct (String.eqb_spec (lifespan config) "auto") as [Ea|Ea].
    + rewrite Ea. cbn -[exception_msg].
      eexists. split; [reflexivity|]. repeat split; reflexivity.
    + cbn -[String.eqb exception_msg].
      destruct (lifespan config =? "on"); cbn -[String.eqb exception_msg];
        (eexists; split; [reflexivity|]; repeat split; reflexivity).
Qed.

Lemma startup_with_silent_application_witness :
  quiet_run (loaded_app raising_auto) [LifespanStartupEvent]
    = Some (Thrown (Exception "not a lifespan scope"), [LifespanStartupEvent])
  /\ exists w',
       startup raising_auto __init__ = Some (Value tt, w')
       /\ startup_event (self w') = true
       /\ error_occured (self w') = true
       /\ should_exit (self w') = false
       /\ output w' =
            [Print_startup_begin; Print_main_app;
             LogInfo "ASGI 'lifespan' protocol appears unsupported.";
             Print_startup_done].
Proof.
  split; [reflexivity|].
  destruct (startup_with_silent_application raising_auto
              (r := Thrown (Exception "not a lifespan scope"))
              (q' := [LifespanStartupEvent]) eq_refl)
    as (w' & Hs & Hev & He & Hx & Ho).
  exists w'. repeat split; assumption.
Defined.

(** C7, as stated, fails: an application that simply returns leaves
    [error_occured] false; under ["on"] [should_exit] stays false, and under
    ["auto"] nothing is logged. *)
Lemma silent_return_is_not_an_error :
  quiet_run (loaded_app returning_on) [LifespanStartupEvent]
    = Some (Value tt, [LifespanStartupEvent])
  /\ startup returning_on __init__
     = Some (Value tt, world_after (startup returning_on) __init__)
  /\ error_occured (self (world_after (startup returning_on) __init__)) = false
  /\ should_exit (self (world_after (startup returning_on) __init__)) = false
  /\ startup returning_auto __init__
     = Some (Value tt, world_after (startup returning_auto) __init__)
  /\ error_occured (self (world_after (startup returning_auto) __init__)) = false
  /\ output (world_after (startup returning_auto) __init__)
     = [Print_startup_begin; Print_main_app; Print_startup_done].
Proof. by_evaluation. Qed.

(** ** The signals as latches *)

Lemma exec_keeps_set : forall st sg w,
  is_set sg (self w) = true -> is_set sg (self (snd (exec st w))) = true.
Proof.
  intros [m|config r] sg w H; cbn [exec].
  - apply send_keeps_set, H.
  - rewrite main_exit_unfold. destruct sg; reflexivity.
Qed.

Lemma send_on_set_signal : forall m sg w,
  calls_set (Step_send m) sg = true ->
  is_set sg (self w) = true ->
  fst (send m w) = Thrown (AssertionError (Some STATE_TRANSITION_ERROR))
  /\ self (snd (send m w)) = self w.
Proof.
  intros m sg w Hc Hset.
  destruct (send_by_table m w) as (Hr & Hs & _).
  rewrite Hr, Hs. clear Hr Hs.
  destruct m as [ty detail]. cbn [calls_set msg_type] in *. unfold transition_table.
  assert (forall b, b && negb true = false) as Hf by (intros []; reflexivity).
  destruct sg; unfold precondition; rewrite Hset.
  - case_type ty "lifespan.startup.complete"; [split; reflexivity|].
    case_type ty "lifespan.startup.failed"; [split; reflexivity|].
    discriminate Hc.
  - case_type ty "lifespan.startup.complete"; [rewrite Hf; split; reflexivity|].
    case_type ty "lifespan.startup.failed"; [rewrite Hf; split; reflexivity|].
    case_type ty "lifespan.shutdown.complete"; [rewrite Hf; split; reflexivity|].
    case_type ty "lifespan.shutdown.failed"; [rewrite Hf; split; reflexivity|].
    discriminate Hc.
Qed.

Lemma wait_keeps_set : forall sg ev config w r w',
  is_set sg (self w) = true ->
  Event_wait ev config w = Some (r, w') ->
  is_set sg (self w') = true.
Proof.
  intros sg ev config w r w'.
  apply (Event_wait_inv (fun w => is_set sg (self w) = true)); try (intros; assumption).
  - intros m w0. apply send_keeps_set.
  - intros config0 r0 w0. apply (exec_keeps_set (Step_main_exit config0 r0)).
Qed.

Lemma startup_keeps_set : forall sg config w r w',
  is_set sg (self w) = true ->
  startup config w = Some (r, w') ->
  is_set sg (self w') = true.
Proof.
  intros sg config w r w' Hset H. rewrite startup_unfold in H.
  destruct (Event_wait startup_event config (snd (startup_begin w))) as [[r1 w1]|] eqn:E;
    [|discriminate].
  assert (is_set sg (self w1) = true) as H1.
  { eapply wait_keeps_set; [|exact E].
    unfold startup_begin. cbn. destruct (getters w); exact Hset. }
  rewrite startup_end_unfold in H. injection H as _ <-.
  destruct (startup_failed (self w1) || (error_occured (self w1) && (lifespan config =? "on")));
    exact H1.
Qed.

Lemma shutdown_keeps_set : forall sg config w r w',
  is_set sg (self w) = true ->
  shutdown config w = Some (r, w') ->
  is_set sg (self w') = true.
Proof.
  intros sg config w r w' Hset H.
  destruct (error_occured (self w)) eqn:Eo.
  - rewrite (shutdown_skipped_after_error_aux config w Eo) in H.
    injection H as _ <-. exact Hset.
  - rewrite (shutdown_unfold config w Eo) in H.
    destruct (Event_wait shutdown_event config (snd (shutdown_begin w))) as [[r1 w1]|] eqn:E;
      [|discriminate].
    assert (is_set sg (self w1) = true) as H1.
    { eapply wait_keeps_set; [|exact E].
      unfold shutdown_begin. cbn. destruct (getters w); exact Hset. }
    unfold shutdown_end in H. cbn in H.
    destruct (shutdown_failed (self w1) || (error_occured (self w1) && (lifespan config =? "on")));
      injection H as _ <-; exact H1.
Qed.

(** C8, as the code has it.  A signal that is set stays set through [send],
    through the exit of [main] and through whole calls of [startup] and
    [shutdown], so each signal goes from unset to set at most once.  Inside
    [send], a message that would set an already-set signal raises the
    state-transition assertion and changes nothing.  The [finally] clause of
    [main] is different: it sets both signals whatever their state and never
    raises. *)
Theorem signals_latch :
  (forall st sg w,
     is_set sg (self w) = true -> is_set sg (self (snd (exec st w))) = true)
  /\ (forall sg config w r w',
        is_set sg (self w) = true ->
        (startup config w = Some (r, w') \/ shutdown config w = Some (r, w')) ->
        is_set sg (self w') = true)
  /\ (forall m sg w,
        calls_set (Step_send m) sg = true ->
        is_set sg (self w) = true ->
        fst (send m w) = Thrown (AssertionError (Some STATE_TRANSITION_ERROR))
        /\ self (snd (send m w)) = self w)
  /\ (forall config r sg w,
        fst (main_exit config r w) = Value tt
        /\ is_set sg (self (snd (main_exit config r w))) = true).
Proof.
  split; [exact exec_keeps_set|]. split.
  { intros sg config w r w' Hset [H|H].
    - eapply startup_keeps_set; eassumption.
    - eapply shutdown_keeps_set; eassumption. }
  split; [exact send_on_set_signal|].
  intros config r sg w. rewrite main_exit_unfold. destruct sg; split; reflexivity.
Qed.

(** A second [lifespan.startup.complete] is refused. *)
Lemma signals_latch_witness :
  calls_set (Step_send complete_startup) StartupSignal = true
  /\ is_set StartupSignal (self (snd (send complete_startup __init__))) = true
  /\ fst (send complete_startup (snd (send complete_startup __init__)))
     = Thrown (AssertionError (Some STATE_TRANSITION_ERROR))
  /\ self (snd (send complete_startup (snd (send complete_startup __init__))))
     = self (snd (send complete_startup __init__)).
Proof.
  split; [reflexivity|]. split; [reflexivity|].
  destruct signals_latch as (_ & _ & H & _).
  apply (H complete_startup StartupSignal (snd (send complete_startup __init__)));
    reflexivity.
Defined.

(** C8, as stated, fails: when [main] ends after the application has sent
    [lifespan.startup.complete], its [finally] clause calls [set] on the
    startup signal a second time; no assertion fails, and nothing shows that
    the signal was already set.  A whole [startup] with such an application
    ends with no error recorded and nothing logged. *)
Lemma main_sets_a_set_signal_silently :
  is_set StartupSignal (self (snd (send complete_startup __init__))) = true
  /\ calls_set (Step_main_exit early_return_on (Value tt)) StartupSignal = true
  /\ exec (Step_main_exit early_return_on (Value tt)) (snd (send complete_startup __init__))
     = (Value tt, with_self set_shutdown_event (snd (send complete_startup __init__)))
  /\ startup early_return_on __init__
     = Some (Value tt, world_after (startup early_return_on) __init__)
  /\ self (world_after (startup early_return_on) __init__)
     = mkLifespanOn true true [] false false false false Missing
  /\ output (world_after (startup early_return_on) __init__)
     = [Print_startup_begin; Print_main_app; Print_send "lifespan.startup.complete";
        Print_startup_done].
Proof. by_evaluation. Qed.

(** ** Startup failure reported by the application *)

(** C9, as stated, fails: the application reports [lifespan.startup.failed]
    ("db unreachable") and returns; [error_occured] is false, and the
    following [shutdown] prints its line, puts [lifespan.shutdown] on the
    queue, passes the (already set) shutdown signal and logs completion. *)
Lemma shutdown_after_failed_startup_enqueues :
  startup failing_startup_on __init__
    = Some (Value tt, world_after (startup failing_startup_on) __init__)
  /\ startup_failed (self (world_after (startup failing_startup_on) __init__)) = true
  /\ should_exit (self (world_after (startup failing_startup_on) __init__)) = true
  /\ error_occured (self (world_after (startup failing_startup_on) __init__)) = false
  /\ receive_queue (self (world_after (startup failing_startup_on) __init__)) = []
  /\ shutdown failing_startup_on (world_after (startup failing_startup_on) __init__)
     = Some (Value tt,
             world_after (shutdown failing_startup_on)
               (world_after (startup failing_startup_on) __init__))
  /\ receive_queue (self (world_after (shutdown failing_startup_on)
                            (world_after (startup failing_startup_on) __init__)))
     = [LifespanShutdownEvent]
  /\ output (world_after (shutdown failing_startup_on)
               (world_after (startup failing_startup_on) __init__))
     = (output (world_after (startup failing_startup_on) __init__)
        ++ [Print_shutdown; LogInfo "Application shutdown complete."])%list.
Proof. by_evaluation. Qed.

(** ** Sample runs *)

(** The usual handshake: both calls succeed and [should_exit] stays false. *)
Example happy_path :
  startup well_behaved_on __init__
    = Some (Value tt, world_after (startup well_behaved_on) __init__)
  /\ shutdown well_behaved_on (world_after (startup well_behaved_on) __init__)
     = Some (Value tt,
             world_after (shutdown well_behaved_on)
               (world_after (startup well_behaved_on) __init__))
  /\ self (world_after (shutdown well_behaved_on)
             (world_after (startup well_behaved_on) __init__))
     = mkLifespanOn true true [] false false false false Missing
  /\ output (world_after (shutdown well_behaved_on)
               (world_after (startup well_behaved_on) __init__))
     = [Print_startup_begin; Print_main_app; Print_send "lifespan.startup.complete";
        Print_startup_done; Print_shutdown; Print_send "lifespan.shutdown.complete";
        Print_okk; LogInfo "Application shutdown complete."].
Proof. by_evaluation. Qed.

(** An application that raises at once: tolerated under ["auto"], fatal under
    ["on"]; [shutdown] is skipped afterwards. *)
Example unsupported_application :
  self (world_after (startup raising_auto) __init__)
    = mkLifespanOn true true [LifespanStartupEvent] true false false false PyNone
  /\ self (world_after (startup raising_on) __init__)
     = mkLifespanOn true true [LifespanStartupEvent] true false false true PyNone
  /\ shutdown raising_on (world_after (startup raising_on) __init__)
     = Some (Value tt, world_after (startup raising_on) __init__).
Proof. by_evaluation. Qed.

(** [lifespan.shutdown.complete] before any startup answer, and a type that is
    not a reply at all. *)
Example protocol_violations :
  fst (send complete_shutdown __init__)
    = Thrown (AssertionError (Some STATE_TRANSITION_ERROR))
  /\ fst (send (failed_shutdown None) __init__)
     = Thrown (AssertionError (Some STATE_TRANSITION_ERROR))
  /\ fst (send (mkSendMessage "lifespan.startup" None) __init__)
     = Thrown (AssertionError None).
Proof. by_evaluation. Qed.

(** An application that asks for a second message before answering the first
    leaves [startup] suspended. *)
Example startup_can_hang :
  startup (mkConfig "on" (receive_then (fun _ => receive_then (fun _ => AppReturn))))
          __init__ = None.
Proof. reflexivity. Qed.

(** ** What [send] writes, and what a refused message leaves behind *)

(** One case of [send]'s output: the type is known, the two signals and the
    detail are split. *)
Ltac send_output_case e1 e2 detail :=
  destruct e1, e2, detail as [[|? ?]|]; cbn; rewrite <- ?app_assoc; reflexivity.

Lemma send_output_aux : forall m w,
  output (snd (send m w)) =
  (output w ++ send_prints m
   ++ match fst (send m w) with
      | Value _ => send_logs m
      | Thrown _ => []
      end)%list.
Proof.
  intros [ty detail] w. open_world w. unfold send_prints, send_logs. cbn [msg_type msg_message].
  case_type ty "lifespan.startup.complete";
    [send_output_case startup_event0 shutdown_event0 detail|].
  case_type ty "lifespan.startup.failed";
    [send_output_case startup_event0 shutdown_event0 detail|].
  case_type ty "lifespan.shutdown.complete";
    [send_output_case startup_event0 shutdown_event0 detail|].
  case_type ty "lifespan.shutdown.failed";
    [send_output_case startup_event0 shutdown_event0 detail|].
  unfold send. rewrite send_types_spec. unfold transition_table. cbn [msg_type].
  rewrite E, E0, E1, E2. reflexivity.
Qed.

(** X2. [send] prints the type of every message before it checks anything,
    and ["okk"] when the type is [lifespan.shutdown.complete], accepted or
    not.  The logger is written to only when a [*.failed] message is accepted
    and carries a non-empty detail: then that detail is logged once, at error
    level.  A [*.complete] message, a refused message, a missing detail and
    an empty detail log nothing. *)
Theorem send_output : forall m w,
  output (snd (send m w)) =
  (output w ++ send_prints m
   ++ match fst (send m w) with
      | Value _ => send_logs m
      | Thrown _ => []
      end)%list.
Proof.
  intros [ty detail] w. open_world w. unfold send_prints, send_logs. cbn [msg_type msg_message].
  case_type ty "lifespan.startup.complete";
    [send_output_case startup_event0 shutdown_event0 detail|].
  case_type ty "lifespan.startup.failed";
    [send_output_case startup_event0 shutdown_event0 detail|].
  case_type ty "lifespan.shutdown.complete";
    [send_output_case startup_event0 shutdown_event0 detail|].
  case_type ty "lifespan.shutdown.failed";
    [send_output_case startup_event0 shutdown_event0 detail|].
  unfold send. rewrite send_types_spec. unfold transition_table. cbn [msg_type].
  rewrite E, E0, E1, E2. reflexivity.
Qed.

Lemma world_eta : forall w,
  w = mkWorld (self w) (output w) (ready w) (getters w) (created w).
Proof. intros []. reflexivity. Qed.

Lemma send_refused_aux : forall m w e,
  fst (send m w) = Thrown e ->
  e = AssertionError match transition_table (msg_type m) with
                     | Some _ => Some STATE_TRANSITION_ERROR
                     | None => None
                     end
  /\ snd (send m w)
     = mkWorld (self w) (output w ++ send_prints m) (ready w) (getters w) (created w).
Proof.
  intros m w e H.
  destruct (send_by_table m w) as (Hr & Hs & Hrd & Hg & Hc).
  pose proof (send_output_aux m w) as Ho.
  rewrite H in Ho. rewrite H in Hr.
  rewrite (world_eta (snd (send m w))), Hs, Ho, Hrd, Hg, Hc, app_nil_r.
  destruct (transition_table (msg_type m)) as [row|].
  - destruct (precondition row (self w)); [discriminate|].
    injection Hr as ->. split; reflexivity.
  - injection Hr as ->. split; reflexivity.
Qed.

(** X3. A message that [send] refuses changes nothing: every assertion comes
    before the first assignment, so the coordinator's fields and the loop are
    as before and only the printed lines were added.  The exception is the
    bare assertion error for a type outside the table and the one carrying
    [STATE_TRANSITION_ERROR] otherwise. *)
Theorem send_refused_changes_nothing : forall m w e,
  fst (send m w) = Thrown e ->
  e = AssertionError match transition_table (msg_type m) with
                     | Some _ => Some STATE_TRANSITION_ERROR
                     | None => None
                     end
  /\ snd (send m w)
     = mkWorld (self w) (output w ++ send_prints m) (ready w) (getters w) (created w).
Proof.
  intros m w e H.
  destruct (send_by_table m w) as (Hr & Hs & Hrd & Hg & Hc).
  pose proof (send_output_aux m w) as Ho.
  rewrite H in Ho. rewrite H in Hr.
  rewrite (world_eta (snd (send m w))), Hs, Ho, Hrd, Hg, Hc, app_nil_r.
  destruct (transition_table (msg_type m)) as [row|].
  - destruct (precondition row (self w)); [discriminate|].
    injection Hr as ->. split; reflexivity.
  - injection Hr as ->. split; reflexivity.
Qed.

Lemma send_refused_changes_nothing_witness :
  fst (send complete_shutdown __init__)
    = Thrown (AssertionError (Some STATE_TRANSITION_ERROR))
  /\ snd (send complete_shutdown __init__)
     = mkWorld (self __init__)
               [Print_send "lifespan.shutdown.complete"; Print_okk] [] [] 0.
Proof.
  split; [reflexivity|].
  apply (send_refused_changes_nothing complete_shutdown __init__
           (e := AssertionError (Some STATE_TRANSITION_ERROR))).
  reflexivity.
Defined.

(** ** The outcome of [shutdown], and who sets [should_exit] *)

Lemma shutdown_end_unfold : forall config w1,
  shutdown_end config w1 =
  (Value tt,
   if shutdown_failed (self w1) || (error_occured (self w1) && (lifespan config =? "on"))
   then with_self (with_should_exit true)
          (snd (emit (LogError "Application shutdown failed. Exiting." None) w1))
   else snd (emit (LogInfo "Application shutdown complete.") w1)).
Proof.
  intros config w1. unfold shutdown_end. cbn.
  destruct (shutdown_failed (self w1) || (error_occured (self w1) && (lifespan config =? "on")));
    reflexivity.
Qed.

(** X1. Unless [error_occured] makes it return at once, [shutdown] goes
    through its wait and then sets [should_exit] exactly when
    [shutdown_failed] holds, or [error_occured] holds and the mode is ["on"]
    (then it logs the shutdown failure at error level); otherwise
    [should_exit] keeps its value and completion is logged at info level.
    Nothing else changes after the wait, and [shutdown] never ends by
    raising. *)
Theorem shutdown_outcome :
  (forall config w,
     shutdown config w =
     if error_occured (self w) then Some (Value tt, w)
     else match Event_wait shutdown_event config (snd (shutdown_begin w)) with
          | Some (_, w1) => Some (shutdown_end config w1)
          | None => None
          end)
  /\ (forall config w1,
        fst (shutdown_end config w1) = Value tt
        /\ should_exit (self (snd (shutdown_end config w1))) =
             (if shutdown_failed (self w1)
                 || (error_occured (self w1) && (lifespan config =? "on"))
              then true else should_exit (self w1))
        /\ output (snd (shutdown_end config w1)) =
             (output w1 ++
              [if shutdown_failed (self w1)
                  || (error_occured (self w1) && (lifespan config =? "on"))
               then LogError "Application shutdown failed. Exiting." None
               else LogInfo "Application shutdown complete."])%list
        /\ with_should_exit (should_exit (self w1)) (self (snd (shutdown_end config w1)))
             = self w1)
  /\ (forall config w exc w', shutdown config w <> Some (Thrown exc, w')).
Proof.
  split; [|split].
  - intros config w. destruct (error_occured (self w)) eqn:E.
    + apply shutdown_skipped_after_error_aux, E.
    + apply shutdown_unfold, E.
  - intros config w1. rewrite shutdown_end_unfold. open_world w1. cbn.
    destruct (shutdown_failed0 || (error_occured0 && (lifespan config =? "on")));
      repeat split; reflexivity.
  - intros config w exc w'. destruct (error_occured (self w)) eqn:E.
    + rewrite (shutdown_skipped_after_error_aux config w E). discriminate.
    + rewrite (shutdown_unfold config w E).
      destruct (Event_wait shutdown_event config (snd (shutdown_begin w))) as [[r w1]|];
        [|discriminate].
      rewrite shutdown_end_unfold. discriminate.
Qed.

Lemma main_exit_should_exit : forall config r w,
  should_exit (self (snd (main_exit config r w))) = should_exit (self w).
Proof.
  intros config r w. rewrite main_exit_unfold. destruct r as [[]|exc]; [reflexivity|].
  open_world w. unfold main_except. cbn.
  destruct (startup_failed0 || shutdown_failed0); [reflexivity|].
  destruct (lifespan config =? "auto"); reflexivity.
Qed.

Lemma send_should_exit : forall m w,
  should_exit (self (snd (send m w))) = should_exit (self w).
Proof.
  intros m w. destruct (send_by_table m w) as (_ & -> & _).
  destruct (transition_table (msg_type m)) as [row|]; [|reflexivity].
  destruct (precondition row (self w)); [|reflexivity].
  apply action_frame.
Qed.

(** The runner tasks never assign [should_exit]. *)
Lemma wait_keeps_should_exit : forall ev config w r w',
  Event_wait ev config w = Some (r, w') ->
  should_exit (self w') = should_exit (self w).
Proof.
  intros ev config w r w' H.
  refine (Event_wait_inv (fun w0 => should_exit (self w0) = should_exit (self w))
            _ _ _ _ _ _ ev config w eq_refl H); try (intros; assumption).
  - intros m w0 H0. rewrite send_should_exit. exact H0.
  - intros config0 r0 w0 H0. rewrite main_exit_should_exit. exact H0.
Qed.

Lemma startup_begin_frame : forall w,
  self (snd (startup_begin w))
  = with_receive_queue (receive_queue (self w) ++ [LifespanStartupEvent]) (self w).
Proof. intros w. unfold startup_begin. cbn. destruct (getters w); reflexivity. Qed.

Lemma shutdown_begin_frame : forall w,
  self (snd (shutdown_begin w))
  = with_receive_queue (receive_queue (self w) ++ [LifespanShutdownEvent]) (self w).
Proof. intros w. unfold shutdown_begin. cbn. destruct (getters w); reflexivity. Qed.

(** X6. [should_exit] is assigned by the two public calls only, never by a
    runner task.  So when [startup] returns, [should_exit] is its old value
    or-ed with the reason [startup] found after the wait: [startup_failed], or
    [error_occured] under mode ["on"]; and likewise for a [shutdown] that was
    not skipped, with [shutdown_failed]. *)
Theorem should_exit_law :
  (forall config w r w',
     startup config w = Some (r, w') ->
     should_exit (self w') =
       should_exit (self w) || startup_failed (self w')
       || (error_occured (self w') && (lifespan config =? "on")))
  /\ (forall config w r w',
        error_occured (self w) = false ->
        shutdown config w = Some (r, w') ->
        should_exit (self w') =
          should_exit (self w) || shutdown_failed (self w')
          || (error_occured (self w') && (lifespan config =? "on"))).
Proof.
  split.
  - intros config w r w' H. rewrite startup_unfold in H.
    destruct (Event_wait startup_event config (snd (startup_begin w))) as [[r1 w1]|] eqn:E;
      [|discriminate].
    apply wait_keeps_should_exit in E. rewrite startup_begin_frame in E. cbn in E.
    rewrite startup_end_unfold in H. injection H as _ <-. rewrite <- E.
    open_world w1. cbn.
    destruct startup_failed0, error_occured0, (lifespan config =? "on"), should_exit0;
      reflexivity.
  - intros config w r w' He H. rewrite (shutdown_unfold config w He) in H.
    destruct (Event_wait shutdown_event config (snd (shutdown_begin w))) as [[r1 w1]|] eqn:E;
      [|discriminate].
    apply wait_keeps_should_exit in E. rewrite shutdown_begin_frame in E. cbn in E.
    rewrite shutdown_end_unfold in H. injection H as _ <-. rewrite <- E.
    open_world w1. cbn.
    destruct shutdown_failed0, error_occured0, (lifespan config =? "on"), should_exit0;
      reflexivity.
Qed.

Lemma should_exit_law_witness :
  startup raising_on __init__ = Some (Value tt, world_after (startup raising_on) __init__)
  /\ should_exit (self (world_after (startup raising_on) __init__)) =
       should_exit (self __init__)
       || startup_failed (self (world_after (startup raising_on) __init__))
       || (error_occured (self (world_after (startup raising_on) __init__))
           && (lifespan raising_on =? "on")).
Proof.
  split; [vm_compute; reflexivity|].
  destruct should_exit_law as [H _].
  apply (H raising_on __init__ (Value tt)). vm_compute. reflexivity.
Defined.

(** ** Invariants of whole calls

    A property of the coordinator's fields that survives [send], the exit of
    [main], a change of the queue and the assignment [should_exit = True]
    survives every sequence of calls. *)
Section CallInvariants.

Variable Q : LifespanOn -> Prop.
Hypothesis Q_send : forall m w, Q (self w) -> Q (self (snd (send m w))).
Hypothesis Q_exit : forall config r w, Q (self w) -> Q (self (snd (main_exit config r w))).
Hypothesis Q_queue : forall q s, Q s -> Q (with_receive_queue q s).
Hypothesis Q_should_exit : forall s, Q s -> Q (with_should_exit true s).

Lemma wait_call_inv : forall ev config w r w',
  Q (self w) -> Event_wait ev config w = Some (r, w') -> Q (self w').
Proof.
  intros ev config w r w'.
  apply (Event_wait_inv (fun w0 => Q (self w0))); try (intros; assumption).
  - exact Q_send.
  - intros q w0. apply Q_queue.
  - exact Q_exit.
Qed.

Lemma startup_call_inv : forall config w r w',
  Q (self w) -> startup config w = Some (r, w') -> Q (self w').
Proof.
  intros config w r w' Hw H. rewrite startup_unfold in H.
  destruct (Event_wait startup_event config (snd (startup_begin w))) as [[r1 w1]|] eqn:E;
    [|discriminate].
  apply wait_call_inv in E; [|rewrite startup_begin_frame; apply Q_queue, Hw].
  rewrite startup_end_unfold in H. injection H as _ <-.
  destruct (startup_failed (self w1) || (error_occured (self w1) && (lifespan config =? "on")));
    [apply Q_should_exit|]; exact E.
Qed.

Lemma shutdown_call_inv : forall config w r w',
  Q (self w) -> shutdown config w = Some (r, w') -> Q (self w').
Proof.
  intros config w r w' Hw H. destruct (error_occured (self w)) eqn:He.
  - rewrite (shutdown_skipped_after_error_aux config w He) in H.
    injection H as _ <-. exact Hw.
  - rewrite (shutdown_unfold config w He) in H.
    destruct (Event_wait shutdown_event config (snd (shutdown_begin w))) as [[r1 w1]|] eqn:E;
      [|discriminate].
    apply wait_call_inv in E; [|rewrite shutdown_begin_frame; apply Q_queue, Hw].
    rewrite shutdown_end_unfold in H. injection H as _ <-.
    destruct (shutdown_failed (self w1) || (error_occured (self w1) && (lifespan config =? "on")));
      [apply Q_should_exit|]; exact E.
Qed.

Lemma cancel_self : forall w, self (cancel_waiting_runner w) = self w.
Proof.
  intros w. unfold cancel_waiting_runner.
  destruct (getters w) as [|[|[| |k|]] ts]; reflexivity.
Qed.

Lemma run_call_inv : forall config c w r w',
  Q (self w) -> run_call config c w = Some (r, w') -> Q (self w').
Proof.
  intros config [| |] w r w' Hw H; cbn [run_call] in H.
  - eapply startup_call_inv; eassumption.
  - eapply shutdown_call_inv; eassumption.
  - unfold lift in H. injection H as _ <-. rewrite cancel_self. exact Hw.
Qed.

Lemma run_calls_inv : forall config cs w r w',
  Q (self w) -> run_calls config cs w = Some (r, w') -> Q (self w').
Proof.
  intros config cs. induction cs as [|c cs IH]; intros w r w' Hw H.
  - cbn in H. injection H as _ <-. exact Hw.
  - cbn [run_calls] in H. cbn -[run_call run_calls] in H.
    destruct (run_call config c w) as [[[[]|e] w1]|] eqn:E; try discriminate.
    + eapply IH; [|exact H]. eapply run_call_inv; eassumption.
    + injection H as _ <-. eapply run_call_inv; eassumption.
Qed.

End CallInvariants.

Lemma send_self_cases : forall m w,
  self (snd (send m w)) = self w
  \/ (startup_event (self w) = false /\ shutdown_event (self w) = false
      /\ (self (snd (send m w)) = set_startup_event (self w)
          \/ self (snd (send m w)) = with_startup_failed true (set_startup_event (self w))))
  \/ (startup_event (self w) = true /\ shutdown_event (self w) = false
      /\ (self (snd (send m w)) = set_shutdown_event (self w)
          \/ self (snd (send m w)) = with_shutdown_failed true (set_shutdown_event (self w)))).
Proof.
  intros m w. destruct (send_by_table m w) as (_ & -> & _).
  unfold transition_table, precondition, is_set, Event.is_set.
  destruct (msg_type m =? "lifespan.startup.complete");
    [|destruct (msg_type m =? "lifespan.startup.failed");
      [|destruct (msg_type m =? "lifespan.shutdown.complete");
        [|destruct (msg_type m =? "lifespan.shutdown.failed")]]];
    cbn [requires_startup_set];
    destruct (startup_event (self w)), (shutdown_event (self w)); cbn; auto 10.
Qed.

Lemma main_exit_self_cases : forall config r w,
  self (snd (main_exit config r w)) = set_shutdown_event (set_startup_event (self w))
  \/ self (snd (main_exit config r w))
     = set_shutdown_event (set_startup_event
         (with_error_occured true (with_asgi PyNone (self w)))).
Proof.
  intros config r w. rewrite main_exit_unfold. destruct r as [[]|exc]; [left; reflexivity|].
  right. open_world w. unfold main_except. cbn.
  destruct (startup_failed0 || shutdown_failed0); [reflexivity|].
  destruct (lifespan config =? "auto"); reflexivity.
Qed.

(** X4. Between calls the coordinator's fields are always consistent,
    whatever the application does and whatever sequence of [startup],
    [shutdown] and cancellations the server runs on a new coordinator: the
    shutdown signal is set only if the startup signal is, [startup_failed]
    (resp. [shutdown_failed]) only if the startup (resp. shutdown) signal is,
    [error_occured] only if both signals are, and [asgi] has been assigned
    exactly when [error_occured] is true. *)
Theorem calls_keep_consistent : forall config cs r w',
  run_calls config cs __init__ = Some (r, w') ->
  consistent (self w') = true.
Proof.
  intros config cs r w'.
  apply (run_calls_inv (fun s => consistent s = true)); try reflexivity.
  - intros m w H. destruct (send_self_cases m w) as [->|[(E1 & E2 & [->| ->])|(E1 & E2 & [->| ->])]];
      [exact H| | | |];
      destruct (self w) as [se sd q eo sf shf sx ag]; cbn in E1, E2; subst;
      revert H; unfold consistent; cbn; destruct eo, sf, shf, ag; cbn; congruence.
  - intros config0 r0 w H. destruct (main_exit_self_cases config0 r0 w) as [-> | ->];
      destruct (self w) as [se sd q eo sf shf sx ag];
      revert H; unfold consistent; cbn; destruct se, sd, eo, sf, shf, ag; cbn; congruence.
  - intros q s H. exact H.
  - intros s H. exact H.
Qed.

Lemma calls_keep_consistent_witness :
  run_calls well_behaved_on [Call_startup; Call_cancel; Call_shutdown] __init__
    = Some (Value tt,
            world_after (run_calls well_behaved_on [Call_startup; Call_cancel; Call_shutdown])
                        __init__)
  /\ consistent
       (self (world_after (run_calls well_behaved_on [Call_startup; Call_cancel; Call_shutdown])
                          __init__)) = true.
Proof.
  split; [vm_compute; reflexivity|].
  apply (calls_keep_consistent well_behaved_on
           [Call_startup; Call_cancel; Call_shutdown] (r := Value tt)).
  vm_compute. reflexivity.
Defined.

(** X5. None of the four flags is ever reset: once [error_occured],
    [startup_failed], [shutdown_failed] or [should_exit] is true it stays true
    through every later call, whatever the application does. *)
Theorem flags_are_never_reset : forall f config cs w r w',
  flag_value f (self w) = true ->
  run_calls config cs w = Some (r, w') ->
  flag_value f (self w') = true.
Proof.
  intros f config cs w r w'.
  apply (run_calls_inv (fun s => flag_value f s = true)).
  - intros m w0 H. destruct (send_self_cases m w0) as [->|[(_ & _ & [->| ->])|(_ & _ & [->| ->])]];
      [exact H| | | |]; destruct f; cbn in *; auto.
  - intros config0 r0 w0 H. destruct (main_exit_self_cases config0 r0 w0) as [-> | ->];
      destruct f; cbn in *; auto.
  - intros q s H. destruct f; exact H.
  - intros s H. destruct f; cbn in *; auto.
Qed.

Lemma flags_are_never_reset_witness :
  flag_value Flag_should_exit (self (world_after (startup failing_startup_on) __init__)) = true
  /\ run_calls failing_startup_on [Call_shutdown; Call_startup]
       (world_after (startup failing_startup_on) __init__)
     = Some (Value tt,
             world_after (run_calls failing_startup_on [Call_shutdown; Call_startup])
               (world_after (startup failing_startup_on) __init__))
  /\ flag_value Flag_should_exit
       (self (world_after (run_calls failing_startup_on [Call_shutdown; Call_startup])
                (world_after (startup failing_startup_on) __init__))) = true.
Proof.
  split; [reflexivity|]. split; [vm_compute; reflexivity|].
  apply (flags_are_never_reset Flag_should_exit failing_startup_on
           [Call_shutdown; Call_startup]
           (world_after (startup failing_startup_on) __init__) (r := Value tt)).
  - reflexivity.
  - vm_compute. reflexivity.
Defined.

(** ** The first [startup] of a new coordinator *)

Lemma startup_begin_init :
  snd (startup_begin __init__)
  = mkWorld (self first_run_world) (output first_run_world) [NotStarted] [] 1.
Proof. reflexivity. Qed.

Lemma first_startup_unfold : forall config,
  startup config __init__ =
  if Event.is_set (startup_event (self (run_task config NotStarted first_run_world)))
  then Some (startup_end config (run_task config NotStarted first_run_world))
  else None.
Proof.
  intros config. rewrite startup_unfold, startup_begin_init.
  unfold Event_wait.
  change (Event.is_set (startup_event (self
            (mkWorld (self first_run_world) (output first_run_world) [NotStarted] [] 1))))
    with false.
  cbn [self output ready getters created run_until].
  change (mkWorld (self first_run_world) (output first_run_world) [] [] 1)
    with first_run_world.
  destruct (Event.is_set (startup_event (self (run_task config NotStarted first_run_world))));
    reflexivity.
Qed.

(** The first [startup] on a new coordinator, unfolded: it is decided by the
    first scheduling of the runner (for applications in the scope of [app]). *)
Lemma first_startup_outcome : forall config,
  startup config __init__ =
  match main config first_run_world with
  | (Exited r, w1) => Some (startup_end config (snd (main_exit config r w1)))
  | (Suspended a, w1) =>
      if Event.is_set (startup_event (self w1))
      then Some (startup_end config (add_getter a w1))
      else None
  end.
Proof.
  intros config. rewrite first_startup_unfold. unfold run_task. cbn [step_task].
  destruct (main config first_run_world) as [[a|r] w1]; cbn [settle].
  - reflexivity.
  - rewrite main_exit_unfold. reflexivity.
Qed.

Lemma send_refused_when_unset : forall m w,
  calls_set (Step_send m) StartupSignal = false ->
  startup_event (self w) = false ->
  fst (send m w) =
  Thrown (AssertionError match transition_table (msg_type m) with
                         | Some _ => Some STATE_TRANSITION_ERROR
                         | None => None
                         end).
Proof.
  intros [ty detail] w Hc Hs.
  destruct (send_by_table (mkSendMessage ty detail) w) as (-> & _).
  cbn [calls_set msg_type] in *. unfold transition_table, precondition, is_set, Event.is_set.
  rewrite Hs.
  case_type ty "lifespan.startup.complete"; [discriminate Hc|].
  case_type ty "lifespan.startup.failed"; [discriminate Hc|].
  case_type ty "lifespan.shutdown.complete"; [reflexivity|].
  case_type ty "lifespan.shutdown.failed"; reflexivity.
Qed.

(** X8. A protocol violation ends the handshake as an error.  If, on a new
    coordinator, the application answers the startup message with anything
    but a [lifespan.startup.*] reply and does not catch the assertion error,
    the error leaves the application call and is caught by [main]: [startup]
    returns with [error_occured] and both signals set, [startup_failed] still
    false, and [should_exit] true exactly under mode ["on"]; the assertion
    error is logged with the "Exception in 'lifespan' protocol" record (under
    ["auto"]: only the "appears unsupported" line); and a later [shutdown] is
    skipped. *)
Theorem protocol_violation_is_an_error : forall config m rest,
  loaded_app config = receive_then (fun _ => send_then m rest) ->
  calls_set (Step_send m) StartupSignal = false ->
  exists w',
    startup config __init__ = Some (Value tt, w')
    /\ self w' = mkLifespanOn true true [] true false false (lifespan config =? "on") PyNone
    /\ output w' =
         ([Print_startup_begin; Print_main_app] ++ send_prints m
          ++ [if lifespan config =? "auto"
              then LogInfo "ASGI 'lifespan' protocol appears unsupported."
              else LogError exception_msg
                     (Some (AssertionError
                              match transition_table (msg_type m) with
                              | Some _ => Some STATE_TRANSITION_ERROR
                              | None => None
                              end));
              if lifespan config =? "on"
              then LogError "Application startup failed. Exiting." None
              else Print_startup_done])%list
    /\ shutdown config w' = Some (Value tt, w').
Proof.
  intros config m rest Happ Hc.
  rewrite first_startup_outcome. unfold main. rewrite Happ.
  unfold receive_then, send_then, first_run_world.
  cbn [emit run_app]. unfold receive. cbn [self receive_queue output ready getters created].
  match goal with
  | |- context [send m ?w] =>
      pose proof (send_refused_when_unset m w Hc eq_refl) as Hr;
      destruct (send_refused_aux m w Hr) as [_ Hw];
      destruct (send m w) as [r1 w1]
  end.
  cbn [fst snd] in Hr, Hw. subst r1 w1. cbn [run_app].
  rewrite main_exit_unfold. unfold main_except, startup_end.
  cbn -[String.eqb exception_msg send_prints transition_table shutdown].
  destruct (String.eqb_spec (lifespan config) "auto") as [Ea|Ea].
  - rewrite Ea. cbn -[exception_msg send_prints transition_table shutdown].
    eexists. split; [reflexivity|]. split; [reflexivity|].
    split; [cbn -[exception_msg send_prints transition_table shutdown];
            rewrite <- ?app_assoc; reflexivity|].
    apply shutdown_skipped_after_error_aux. reflexivity.
  - cbn -[String.eqb exception_msg send_prints transition_table shutdown].
    destruct (lifespan config =? "on"); cbn -[String.eqb exception_msg send_prints transition_table shutdown];
      (eexists; split; [reflexivity|]; split; [reflexivity|];
       split; [cbn -[String.eqb exception_msg send_prints transition_table shutdown];
               rewrite <- ?app_assoc; reflexivity|];
       apply shutdown_skipped_after_error_aux; reflexivity).
Qed.

Lemma protocol_violation_is_an_error_witness :
  exists w',
    startup (mkConfig "on" (receive_then (fun _ => send_then complete_shutdown AppReturn)))
            __init__ = Some (Value tt, w')
    /\ self w' = mkLifespanOn true true [] true false false true PyNone.
Proof.
  destruct (protocol_violation_is_an_error
              (mkConfig "on" (receive_then (fun _ => send_then complete_shutdown AppReturn)))
              (m := complete_shutdown) (rest := AppReturn) eq_refl eq_refl)
    as (w' & Hs & Hf & _).
  exists w'. split; assumption.
Defined.

(** ** Whole handshakes *)

(** X9. The complete handshake, for every mode.  The application
    acknowledges startup, waits, and answers the shutdown message with
    [lifespan.shutdown.complete] or [lifespan.shutdown.failed], then returns.
    [startup] returns with only the startup signal set and [should_exit]
    false, the runner waiting in [receive()]; [shutdown] then returns with
    both signals set, the queue empty and no task left, and [should_exit] (as
    [shutdown_failed]) true exactly when the answer was the failure;
    [error_occured] stays false. *)
Theorem handshake : forall config (failed : bool) detail,
  loaded_app config =
    receive_then (fun _ => send_then complete_startup
      (receive_then (fun _ =>
         send_then (if failed then failed_shutdown detail else complete_shutdown)
                   AppReturn))) ->
  startup config __init__ = Some (Value tt, world_after (startup config) __init__)
  /\ self (world_after (startup config) __init__)
     = mkLifespanOn true false [] false false false false Missing
  /\ List.length (getters (world_after (startup config) __init__)) = 1
  /\ shutdown config (world_after (startup config) __init__)
     = Some (Value tt,
             world_after (shutdown config) (world_after (startup config) __init__))
  /\ self (world_after (shutdown config) (world_after (startup config) __init__))
     = mkLifespanOn true true [] false false failed failed Missing
  /\ ready (world_after (shutdown config) (world_after (startup config) __init__)) = []
  /\ getters (world_after (shutdown config) (world_after (startup config) __init__)) = [].
Proof.
  intros [mode a] failed detail Happ. cbn [loaded_app] in Happ. subst a.
  destruct failed, detail as [[|c d]|]; by_evaluation.
Qed.

Lemma handshake_witness :
  startup (mkConfig "auto"
             (receive_then (fun _ => send_then complete_startup
                (receive_then (fun _ =>
                   send_then (failed_shutdown (Some "flush failed")) AppReturn)))))
          __init__
  = Some (Value tt,
          world_after
            (startup (mkConfig "auto"
               (receive_then (fun _ => send_then complete_startup
                  (receive_then (fun _ =>
                     send_then (failed_shutdown (Some "flush failed")) AppReturn))))))
            __init__).
Proof.
  apply (handshake
           (mkConfig "auto"
              (receive_then (fun _ => send_then complete_startup
                 (receive_then (fun _ =>
                    send_then (failed_shutdown (Some "flush failed")) AppReturn)))))
           true (Some "flush failed")).
  reflexivity.
Defined.

(** X10. A failure is reported once.  If the application sends
    [lifespan.startup.failed] and then raises, [main] records the error but
    logs nothing about the exception, whatever the mode: the only records are
    the detail of the message (if any) and the startup failure logged by
    [startup].  [startup] returns with [should_exit] true even under
    ["auto"], and a later [shutdown] is skipped. *)
Theorem startup_failure_is_reported_once : forall config detail exc,
  loaded_app config =
    receive_then (fun _ => send_then (failed_startup detail) (AppRaise exc)) ->
  startup config __init__ = Some (Value tt, world_after (startup config) __init__)
  /\ self (world_after (startup config) __init__)
     = mkLifespanOn true true [] true true false true PyNone
  /\ output (world_after (startup config) __init__)
     = ([Print_startup_begin; Print_main_app; Print_send "lifespan.startup.failed"]
        ++ send_logs (failed_startup detail)
        ++ [LogError "Application startup failed. Exiting." None])%list
  /\ shutdown config (world_after (startup config) __init__)
     = Some (Value tt, world_after (startup config) __init__).
Proof.
  intros [mode a] detail exc Happ. cbn [loaded_app] in Happ. subst a.
  destruct detail as [[|c d]|]; by_evaluation.
Qed.

Lemma startup_failure_is_reported_once_witness :
  self (world_after
          (startup (mkConfig "auto"
             (receive_then (fun _ =>
                send_then (failed_startup (Some "db unreachable"))
                          (AppRaise (Exception "db unreachable"))))))
          __init__)
  = mkLifespanOn true true [] true true false true PyNone.
Proof.
  apply (startup_failure_is_reported_once
           (mkConfig "auto"
              (receive_then (fun _ =>
                 send_then (failed_startup (Some "db unreachable"))
                           (AppRaise (Exception "db unreachable")))))
           (detail := Some "db unreachable") (exc := Exception "db unreachable")).
  reflexivity.
Defined.

(** ** Calls on a coordinator whose runner has ended *)

(** X11. A call whose signal is already set returns without giving the loop
    a turn, so once the runner has ended (which sets both signals) no call can
    be left suspended.  Such a [startup] still creates a runner and puts its
    message on the queue before it evaluates the outcome; such a [shutdown]
    still puts its message unless [error_occured] makes it return at once. *)
Theorem no_wait_once_signal_is_set :
  (forall config w,
     startup_event (self w) = true ->
     startup config w = Some (startup_end config (snd (startup_begin w))))
  /\ (forall config w,
        shutdown_event (self w) = true ->
        shutdown config w =
        if error_occured (self w) then Some (Value tt, w)
        else Some (shutdown_end config (snd (shutdown_begin w)))).
Proof.
  split.
  - intros config w H. rewrite startup_unfold. unfold Event_wait, Event.is_set.
    rewrite startup_begin_frame. cbn [startup_event with_receive_queue].
    rewrite H. reflexivity.
  - intros config w H. destruct (error_occured (self w)) eqn:He.
    + apply shutdown_skipped_after_error_aux, He.
    + rewrite (shutdown_unfold config w He). unfold Event_wait, Event.is_set.
      rewrite shutdown_begin_frame. cbn [shutdown_event with_receive_queue].
      rewrite H. reflexivity.
Qed.

Lemma no_wait_once_signal_is_set_witness :
  startup_event (self (world_after (startup returning_on) __init__)) = true
  /\ startup returning_on (world_after (startup returning_on) __init__)
     = Some (startup_end returning_on
               (snd (startup_begin (world_after (startup returning_on) __init__)))).
Proof.
  split; [reflexivity|].
  destruct no_wait_once_signal_is_set as [H _].
  apply (H returning_on (world_after (startup returning_on) __init__)).
  reflexivity.
Defined.

(** ** Counting the runner tasks *)

Lemma startup_created_aux : forall config w r w',
  startup config w = Some (r, w') -> created w' = S (created w).
Proof.
  intros config w r w' H. rewrite startup_unfold in H.
  destruct (Event_wait startup_event config (snd (startup_begin w))) as [[r1 w1]|] eqn:E;
    [|discriminate].
  injection H as H.
  replace w' with (snd (startup_end config w1)) by (rewrite H; reflexivity).
  rewrite startup_end_created.
  eapply wait_keeps_created; [|exact E]. apply startup_begin_created.
Qed.

Lemma shutdown_created_aux : forall config w r w',
  shutdown config w = Some (r, w') -> created w' = created w.
Proof.
  intros config w r w' H. destruct (error_occured (self w)) eqn:Eo.
  - rewrite (shutdown_skipped_after_error_aux config w Eo) in H.
    injection H as _ <-. reflexivity.
  - rewrite (shutdown_unfold config w Eo) in H.
    destruct (Event_wait shutdown_event config (snd (shutdown_begin w))) as [[r1 w1]|] eqn:E;
      [|discriminate].
    injection H as H.
    replace w' with (snd (shutdown_end config w1)) by (rewrite H; reflexivity).
    rewrite shutdown_end_created.
    eapply wait_keeps_created; [|exact E]. apply shutdown_begin_spec.
Qed.

Lemma cancel_created : forall w, created (cancel_waiting_runner w) = created w.
Proof.
  intros w. unfold cancel_waiting_runner.
  destruct (getters w) as [|[|[| |k|]] ts]; reflexivity.
Qed.

(** X12. Over any sequence of calls, the number of runner tasks created is
    the number of [startup] calls made: each [startup] adds one, [shutdown]
    and cancellation add none, and nothing the application does creates or
    removes one. *)
Theorem runners_created_equals_startup_calls : forall config cs w r w',
  run_calls config cs w = Some (r, w') ->
  created w' = created w + List.length (filter is_startup cs).
Proof.
  intros config cs. induction cs as [|c cs IH]; intros w r w' H.
  - cbn in H. injection H as _ <-. cbn. lia.
  - cbn [run_calls] in H. cbn -[run_call run_calls] in H.
    destruct (run_call config c w) as [[[[]|e] w1]|] eqn:E; try discriminate.
    + apply IH in H. rewrite H. clear H.
      destruct c; cbn [run_call] in E; cbn [filter is_startup List.length].
      * apply startup_created_aux in E. lia.
      * apply shutdown_created_aux in E. lia.
      * unfold lift in E. injection E as <-. rewrite cancel_created. lia.
    + injection H as _ <-.
      destruct c; cbn [run_call] in E.
      * exfalso. rewrite startup_unfold in E.
        destruct (Event_wait startup_event config (snd (startup_begin w))) as [[r1 w2]|];
          [|discriminate].
        rewrite startup_end_unfold in E. discriminate.
      * exfalso. destruct (error_occured (self w)) eqn:Eo.
        -- rewrite (shutdown_skipped_after_error_aux config w Eo) in E. discriminate.
        -- rewrite (shutdown_unfold config w Eo) in E.
           destruct (Event_wait shutdown_event config (snd (shutdown_begin w))) as [[r1 w2]|];
             [|discriminate].
           rewrite shutdown_end_unfold in E. discriminate.
      * unfold lift in E. discriminate.
Qed.

Lemma runners_created_equals_startup_calls_witness :
  run_calls well_behaved_on [Call_startup; Call_startup; Call_shutdown] __init__
    = Some (Value tt,
            world_after
              (run_calls well_behaved_on [Call_startup; Call_startup; Call_shutdown])
              __init__)
  /\ created (world_after
                (run_calls well_behaved_on [Call_startup; Call_startup; Call_shutdown])
                __init__) = 2.
Proof.
  split; [vm_compute; reflexivity|].
  apply (runners_created_equals_startup_calls well_behaved_on
           [Call_startup; Call_startup; Call_shutdown] __init__ (r := Value tt)).
  vm_compute. reflexivity.
Defined.

(** ** What the mode is used for *)

Section SameMode.

Variables c1 c2 : Config.
Hypothesis Hsame : same_mode c1 c2.

Lemma same_main_exit : forall r w, main_exit c1 r w = main_exit c2 r w.
Proof.
  intros r w. rewrite !main_exit_unfold. destruct r as [[]|exc]; [reflexivity|].
  unfold main_except. destruct Hsame as (_ & -> & _). reflexivity.
Qed.

Lemma same_run_task : forall t w, run_task c1 t w = run_task c2 t w.
Proof.
  intros t w. unfold run_task.
  assert (step_task c1 t w = step_task c2 t w) as ->.
  { destruct t; cbn [step_task]; [|reflexivity].
    unfold main. destruct Hsame as (-> & _). reflexivity. }
  destruct (step_task c2 t w) as [[a|r] w1]; cbn [settle]; [reflexivity|].
  rewrite same_main_exit. reflexivity.
Qed.

Lemma same_run_tasks : forall ts w, run_tasks c1 ts w = run_tasks c2 ts w.
Proof.
  unfold run_tasks. induction ts as [|t ts IH]; intros w; cbn [fold_left]; [reflexivity|].
  rewrite same_run_task. apply IH.
Qed.

Lemma same_run_until : forall ev ts w, run_until ev c1 ts w = run_until ev c2 ts w.
Proof.
  intros ev. induction ts as [|t ts IH]; intros w; cbn [run_until]; [reflexivity|].
  rewrite same_run_task, same_run_tasks, IH. reflexivity.
Qed.

Lemma same_Event_wait : forall ev w, Event_wait ev c1 w = Event_wait ev c2 w.
Proof. intros ev w. unfold Event_wait. rewrite same_run_until. reflexivity. Qed.

Lemma same_startup : forall w, startup c1 w = startup c2 w.
Proof.
  intros w. rewrite !startup_unfold, same_Event_wait.
  destruct (Event_wait startup_event c2 (snd (startup_begin w))) as [[r w1]|]; [|reflexivity].
  rewrite !startup_end_unfold. destruct Hsame as (_ & _ & ->). reflexivity.
Qed.

Lemma same_shutdown : forall w, shutdown c1 w = shutdown c2 w.
Proof.
  intros w. destruct (error_occured (self w)) eqn:He.
  - rewrite !(shutdown_skipped_after_error_aux _ w He). reflexivity.
  - rewrite !(shutdown_unfold _ w He), same_Event_wait.
    destruct (Event_wait shutdown_event c2 (snd (shutdown_begin w))) as [[r w1]|];
      [|reflexivity].
    rewrite !shutdown_end_unfold. destruct Hsame as (_ & _ & ->). reflexivity.
Qed.

Lemma same_run_calls : forall cs w, run_calls c1 cs w = run_calls c2 cs w.
Proof.
  induction cs as [|c cs IH]; intros w; [reflexivity|].
  cbn [run_calls]. cbn -[run_call run_calls].
  assert (run_call c1 c w = run_call c2 c w) as ->.
  { destruct c; cbn [run_call]; [apply same_startup|apply same_shutdown|reflexivity]. }
  destruct (run_call c2 c w) as [[[[]|e] w1]|]; [apply IH|reflexivity|reflexivity].
Qed.

End SameMode.

(** Every configuration behaves like one whose mode is ["auto"], ["on"] or
    ["off"]. *)
Lemma mode_cases : forall config,
  exists mode,
    (mode = "auto" \/ mode = "on" \/ mode = "off")
    /\ same_mode config (mkConfig mode (loaded_app config)).
Proof.
  intros [mode a]. cbn [loaded_app].
  destruct (String.eqb_spec mode "auto") as [->|Ea].
  { exists "auto". split; [auto|]. repeat split; reflexivity. }
  destruct (String.eqb_spec mode "on") as [->|Eo].
  { exists "on". split; [auto|]. repeat split; reflexivity. }
  exists "off". split; [auto|].
  apply String.eqb_neq in Ea, Eo.
  unfold same_mode. cbn [lifespan loaded_app]. rewrite Ea, Eo. repeat split; reflexivity.
Qed.

(** X14. The mode is consulted for two tests only, [== "auto"] in [main] and
    [== "on"] in [startup] and [shutdown].  Two configurations that load the
    same application and agree on both tests give the same run for every
    sequence of calls from every state; so any mode that is neither ["auto"]
    nor ["on"] (["off"], or a misspelt one) behaves exactly alike. *)
Theorem mode_matters_only_as_auto_or_on : forall c1 c2 cs w,
  same_mode c1 c2 ->
  run_calls c1 cs w = run_calls c2 cs w.
Proof.
  intros c1 c2 cs w H. revert w.
  induction cs as [|c cs IH]; intros w; [reflexivity|].
  cbn [run_calls]. cbn -[run_call run_calls].
  assert (run_call c1 c w = run_call c2 c w) as ->.
  { destruct c; cbn [run_call].
    - apply same_startup, H.
    - apply same_shutdown, H.
    - reflexivity. }
  destruct (run_call c2 c w) as [[[[]|e] w1]|]; [apply IH|reflexivity|reflexivity].
Qed.

Lemma mode_matters_only_as_auto_or_on_witness :
  same_mode (mkConfig "off" raising_app) (mkConfig "On" raising_app)
  /\ run_calls (mkConfig "off" raising_app) [Call_startup; Call_shutdown] __init__
     = run_calls (mkConfig "On" raising_app) [Call_startup; Call_shutdown] __init__.
Proof.
  assert (same_mode (mkConfig "off" raising_app) (mkConfig "On" raising_app)) as H
    by (repeat split; reflexivity).
  split; [exact H|].
  apply (mode_matters_only_as_auto_or_on [Call_startup; Call_shutdown] __init__ H).
Defined.

(** ** Output only grows *)

Lemma main_exit_output_grows : forall config r w,
  List.length (output w) <= List.length (output (snd (main_exit config r w))).
Proof.
  intros config r w. rewrite main_exit_unfold. destruct r as [[]|exc]; [cbn; lia|].
  open_world w. unfold main_except. cbn.
  destruct (startup_failed0 || shutdown_failed0); [cbn; lia|].
  destruct (lifespan config =? "auto"); cbn; rewrite length_app; lia.
Qed.

Lemma wait_output_grows : forall n ev config w r w',
  n <= List.length (output w) ->
  Event_wait ev config w = Some (r, w') ->
  n <= List.length (output w').
Proof.
  intros n ev config w r w'.
  apply (Event_wait_inv (fun w0 => n <= List.length (output w0))); try (intros; assumption).
  - intros m w0 H. rewrite send_output_aux, length_app. lia.
  - intros o w0 H. cbn. rewrite length_app. lia.
  - intros config0 r0 w0 H. pose proof (main_exit_output_grows config0 r0 w0). lia.
Qed.

(** A [shutdown] that is not skipped writes at least its own two lines. *)
Lemma shutdown_output_grows : forall config w r w',
  error_occured (self w) = false ->
  shutdown config w = Some (r, w') ->
  List.length (output w) + 2 <= List.length (output w').
Proof.
  intros config w r w' He H. rewrite (shutdown_unfold config w He) in H.
  destruct (Event_wait shutdown_event config (snd (shutdown_begin w))) as [[r1 w1]|] eqn:E;
    [|discriminate].
  apply (wait_output_grows (n := List.length (output w) + 1)) in E.
  - rewrite shutdown_end_unfold in H. injection H as _ <-.
    destruct (shutdown_failed (self w1) || (error_occured (self w1) && (lifespan config =? "on")));
      cbn; rewrite length_app; cbn; lia.
  - destruct (shutdown_begin_spec w) as (_ & -> & _). rewrite length_app. cbn. lia.
Qed.

Lemma send_error_occured : forall m w,
  error_occured (self (snd (send m w))) = error_occured (self w).
Proof.
  intros m w. destruct (send_by_table m w) as (_ & -> & _).
  destruct (transition_table (msg_type m)) as [row|]; [|reflexivity].
  destruct (precondition row (self w)); [|reflexivity].
  apply action_frame.
Qed.

Lemma send_failed_startup_first : forall detail,
  send (failed_startup detail)
       (mkWorld (mkLifespanOn false false [] false false false false Missing)
                [Print_startup_begin; Print_main_app] [] [] 1)
  = (Value tt, world_after_startup_failed detail).
Proof. intros [[|c d]|]; reflexivity. Qed.

(** C9, as the code has it.  Take an application that answers the startup
    message of a new coordinator with [lifespan.startup.failed] and then goes
    on in any way that does not raise out of the application call (it
    returns, or waits for the next message).  [startup] returns with
    [startup_failed] and [should_exit] true and with [error_occured] still
    false: only [main]'s [except] clause sets it.  The guard of [shutdown]
    looks at [error_occured] alone, so the next [shutdown] does not return at
    once: it puts [lifespan.shutdown] on the queue and waits for the shutdown
    signal, and if it returns it has written at least its own two lines. *)
Theorem shutdown_after_startup_failed : forall config detail rest,
  loaded_app config = receive_then (fun _ => send_then (failed_startup detail) rest) ->
  ends_raising (fst (run_app rest (world_after_startup_failed detail))) = false ->
  exists w1,
    startup config __init__ = Some (Value tt, w1)
    /\ startup_failed (self w1) = true
    /\ should_exit (self w1) = true
    /\ error_occured (self w1) = false
    /\ receive_queue (self (snd (shutdown_begin w1)))
       = (receive_queue (self w1) ++ [LifespanShutdownEvent])%list
    /\ shutdown config w1 =
       match Event_wait shutdown_event config (snd (shutdown_begin w1)) with
       | Some (_, w2) => Some (shutdown_end config w2)
       | None => None
       end
    /\ shutdown config w1 <> Some (Value tt, w1).
Proof.
  intros config detail rest Happ Hq.
  assert (exists w1,
            startup config __init__ = Some (Value tt, w1)
            /\ startup_failed (self w1) = true
            /\ should_exit (self w1) = true
            /\ error_occured (self w1) = false) as (w1 & Hs & Hf & Hx & He).
  { rewrite first_startup_outcome. unfold main. rewrite Happ.
    unfold receive_then, send_then, first_run_world.
    cbn [emit run_app]. unfold receive. cbn [self receive_queue output ready getters created].
    match goal with
    | |- context [send (failed_startup detail) ?w] =>
        change (send (failed_startup detail) w)
          with (send (failed_startup detail)
                  (mkWorld (mkLifespanOn false false [] false false false false Missing)
                           [Print_startup_begin; Print_main_app] [] [] 1))
    end.
    rewrite send_failed_startup_first.
    pose proof (run_app_inv
                  (fun w => startup_event (self w) = true
                            /\ startup_failed (self w) = true
                            /\ error_occured (self w) = false)) as Hinv.
    specialize (Hinv
      (fun m w H => conj (send_keeps_set StartupSignal m w (proj1 H))
                      (conj (send_keeps_startup_failed m w (proj1 (proj2 H)))
                            (eq_trans (send_error_occured m w) (proj2 (proj2 H)))))
      (fun q w H => H)
      rest (world_after_startup_failed detail)
      (conj eq_refl (conj eq_refl eq_refl))).
    destruct (run_app rest (world_after_startup_failed detail)) as [[a|[[]|exc]] w2];
      cbn [fst snd ends_raising] in Hq, Hinv; [| |discriminate Hq];
      destruct Hinv as (Hev & Hsf & Heo).
    - unfold Event.is_set. rewrite Hev, startup_end_unfold.
      cbn [add_getter self]. rewrite Hsf. cbn [orb].
      eexists. split; [reflexivity|]. repeat split; cbn; assumption.
    - rewrite main_exit_unfold, startup_end_unfold.
      cbn [snd with_self self set_shutdown_event set_startup_event startup_failed error_occured].
      rewrite Hsf. cbn [orb].
      eexists. split; [reflexivity|]. repeat split; cbn; assumption. }
  exists w1. repeat split; try assumption.
  - apply shutdown_begin_spec.
  - apply shutdown_unfold, He.
  - intros H. apply (shutdown_output_grows config w1 He) in H. lia.
Qed.

(** The application of the scenario returns after its message; the run goes
    on through [shutdown]. *)
Lemma shutdown_after_startup_failed_witness :
  loaded_app failing_startup_on
    = receive_then (fun _ => send_then (failed_startup (Some "db unreachable")) AppReturn)
  /\ ends_raising (fst (run_app AppReturn
                          (world_after_startup_failed (Some "db unreachable")))) = false
  /\ exists w1,
       startup failing_startup_on __init__ = Some (Value tt, w1)
       /\ startup_failed (self w1) = true
       /\ should_exit (self w1) = true
       /\ error_occured (self w1) = false
       /\ receive_queue (self (snd (shutdown_begin w1)))
          = (receive_queue (self w1) ++ [LifespanShutdownEvent])%list
       /\ shutdown failing_startup_on w1 <> Some (Value tt, w1).
Proof.
  split; [reflexivity|]. split; [reflexivity|].
  destruct (shutdown_after_startup_failed failing_startup_on
              (detail := Some "db unreachable") (rest := AppReturn) eq_refl eq_refl)
    as (w1 & Hs & Hf & Hx & He & Hq & _ & Hn).
  exists w1. repeat split; assumption.
Defined.

(** ** Cancelling the runner *)

(** X13. Cancellation is handled like any other failure of the application,
    and what [shutdown] then does depends on whether the loop has run the
    cancelled runner before [shutdown] is called.  The runner waits in
    [receive()] after a successful startup, is cancelled there, and the
    application lets [CancelledError] through.

    - If [shutdown] is called before the loop has had a turn, it finds
      [error_occured] false, puts its message (which nobody reads) and waits;
      the runner then ends in [main]'s [except] clause and [shutdown]
      returns: under ["on"] it logs the failure and sets [should_exit],
      otherwise it logs completion.
    - If the loop has a turn first, the runner ends there, and [shutdown]
      is skipped: nothing is put on the queue, nothing more is logged and
      [should_exit] stays false under every mode.

    In both cases [error_occured] and both signals end set, and [main] logs
    the cancellation as an unsupported protocol under ["auto"] and as an
    exception otherwise. *)
Theorem cancelled_runner_is_a_failed_runner : forall config k,
  loaded_app config =
    receive_then (fun _ => send_then complete_startup (receive_then k)) ->
  exists w1,
    startup config __init__ = Some (Value tt, w1)
    /\ (exists wa,
          shutdown config (cancel_waiting_runner w1) = Some (Value tt, wa)
          /\ self wa = mkLifespanOn true true [LifespanShutdownEvent] true false false
                         (lifespan config =? "on") PyNone
          /\ output wa =
               [Print_startup_begin; Print_main_app;
                Print_send "lifespan.startup.complete";
                Print_startup_done; Print_shutdown;
                if lifespan config =? "auto"
                then LogInfo "ASGI 'lifespan' protocol appears unsupported."
                else LogError exception_msg (Some CancelledError);
                if lifespan config =? "on"
                then LogError "Application shutdown failed. Exiting." None
                else LogInfo "Application shutdown complete."])
    /\ (shutdown config (loop_turn config (cancel_waiting_runner w1))
          = Some (Value tt, loop_turn config (cancel_waiting_runner w1))
        /\ self (loop_turn config (cancel_waiting_runner w1))
           = mkLifespanOn true true [] true false false false PyNone
        /\ output (loop_turn config (cancel_waiting_runner w1)) =
             [Print_startup_begin; Print_main_app;
              Print_send "lifespan.startup.complete";
              Print_startup_done;
              if lifespan config =? "auto"
              then LogInfo "ASGI 'lifespan' protocol appears unsupported."
              else LogError exception_msg (Some CancelledError)]).
Proof.
  intros config k Happ.
  destruct (mode_cases config) as (mode & Hmode & Hsame).
  pose proof Hsame as (_ & Ha & Ho). cbn [lifespan] in Ha, Ho. rewrite Ha, Ho.
  destruct Hmode as [-> | [-> | ->]];
    (eexists; split;
     [rewrite (same_startup Hsame), Happ; vm_compute; reflexivity|];
     split;
     [eexists; split;
      [rewrite (same_shutdown Hsame), Happ; vm_compute; reflexivity
      |split; reflexivity]
     |unfold loop_turn;
      rewrite (same_run_tasks Hsame), (same_shutdown Hsame), Happ;
      by_evaluation]).
Qed.

Lemma cancelled_runner_is_a_failed_runner_witness :
  exists w1,
    startup well_behaved_on __init__ = Some (Value tt, w1)
    /\ (exists wa,
          shutdown well_behaved_on (cancel_waiting_runner w1) = Some (Value tt, wa)
          /\ self wa = mkLifespanOn true true [LifespanShutdownEvent] true false false
                         true PyNone)
    /\ shutdown well_behaved_on (loop_turn well_behaved_on (cancel_waiting_runner w1))
       = Some (Value tt, loop_turn well_behaved_on (cancel_waiting_runner w1))
    /\ self (loop_turn well_behaved_on (cancel_waiting_runner w1))
       = mkLifespanOn true true [] true false false false PyNone.
Proof.
  destruct (cancelled_runner_is_a_failed_runner well_behaved_on
              (k := fun _ => send_then complete_shutdown AppReturn) eq_refl)
    as (w1 & Hs & (wa & Ha & Hsa & _) & Hb & Hsb & _).
  exists w1. split; [exact Hs|]. split; [exists wa; split; assumption|].
  split; assumption.
Defined.
